(** * Mission-control dashboard: auth provider, local login and agent forms

    A shallow embedding of the React views of the dashboard front end:
    - [AuthProvider]            (auth provider wrapper),
    - [LocalAuthLogin]          (components/organisms/LocalAuthLogin.tsx),
    - [NewAgentPage]            (app/agents/new/page.tsx),
    - [EditAgentPage]           (the agent edit page).

    Event handlers are written in a small state / trace / exception monad:
    component state is threaded explicitly, every outward action
    ([preventDefault], [fetch], [router.push], [location.reload]) is recorded
    in a trace, and a rejected [await] or a [throw] is an abrupt completion
    that [try]/[catch]/[finally] handle as in the source. *)

From Stdlib Require Import List NArith Bool String Ascii.
From ExtLib Require Import Structures.Monad.
Import ListNotations.
Import MonadNotation.
Local Open Scope monad_scope.
Local Open Scope N_scope.

(** ** JavaScript strings and values *)

Module JS.

(** A JavaScript string is a sequence of UTF-16 code units. *)
Definition jsstring := list N.

(** An ASCII literal of the source. *)
Definition str (s : string) : jsstring :=
  map N_of_ascii (list_ascii_of_string s).

Arguments str : simpl never.

Fixpoint streq (a b : jsstring) : bool :=
  match a, b with
  | [], [] => true
  | x :: a', y :: b' => (x =? y) && streq a' b'
  | _, _ => false
  end.

(** ECMAScript WhiteSpace and LineTerminator code points, the ones
    [String.prototype.trim] strips. *)
Definition isWhiteSpace (c : N) : bool :=
  (c =? 0x9) || (c =? 0xA) || (c =? 0xB) || (c =? 0xC) || (c =? 0xD)
  || (c =? 0x20) || (c =? 0xA0) || (c =? 0x1680)
  || ((0x2000 <=? c) && (c <=? 0x200A))
  || (c =? 0x2028) || (c =? 0x2029) || (c =? 0x202F) || (c =? 0x205F)
  || (c =? 0x3000) || (c =? 0xFEFF).

Fixpoint trimStart (s : jsstring) : jsstring :=
  match s with
  | [] => []
  | c :: r => if isWhiteSpace c then trimStart r else s
  end.

Definition trimEnd (s : jsstring) : jsstring := rev (trimStart (rev s)).

(** [s.trim()] *)
Definition trim (s : jsstring) : jsstring := trimEnd (trimStart s).

(** Empty or white space only. *)
Definition blank (s : jsstring) : bool := forallb isWhiteSpace s.

(** Truthiness of a string: every string but the empty one. *)
Definition truthy (s : jsstring) : bool :=
  match s with [] => false | _ :: _ => true end.

(** Truthiness of a [string | null | undefined]. *)
Definition truthyOpt (o : option jsstring) : bool :=
  match o with Some s => truthy s | None => false end.

(** Truthiness of a [boolean | undefined]. *)
Definition truthyFlag (o : option bool) : bool :=
  match o with Some b => b | None => false end.

(** [a || b] on strings. *)
Definition orElse (a b : jsstring) : jsstring := if truthy a then a else b.

(** [a || null] on strings. *)
Definition orNull (a : jsstring) : option jsstring :=
  if truthy a then Some a else None.

(** [a ?? b] *)
Definition nullish (a : option jsstring) (b : jsstring) : jsstring :=
  match a with Some s => s | None => b end.

(** A [string | undefined] spliced into a template literal. *)
Definition splice (o : option jsstring) : jsstring :=
  match o with Some s => s | None => str "undefined" end.

(** A thrown value: an [Error] object with its message, or anything else. *)
Inductive thrown : Type :=
| ErrorObject (message : jsstring)
| OtherValue.

(** The settled state of an awaited promise. *)
Inductive awaited (A : Type) : Type :=
| Fulfilled (a : A)
| Rejected (t : thrown).
Arguments Fulfilled {A} a.
Arguments Rejected {A} t.

End JS.
Import JS.

(** ** The handler monad *)

Module Handler.

Inductive completion (A : Type) : Type :=
| Normal (a : A)
| Throw (t : thrown).
Arguments Normal {A} a.
Arguments Throw {A} t.

(** A handler step over state [S] with recorded actions [E]. *)
Definition M (S E A : Type) : Type := S -> completion A * S * list E.

Section Ops.
Context {S E : Type}.

Definition mret {A} (a : A) : M S E A := fun s => (Normal a, s, []).

Definition mbind {A B} (m : M S E A) (k : A -> M S E B) : M S E B :=
  fun s =>
    match m s with
    | (Normal a, s1, tr1) =>
        match k a s1 with (r, s2, tr2) => (r, s2, tr1 ++ tr2) end
    | (Throw t, s1, tr1) => (Throw t, s1, tr1)
    end.

(** A state setter. *)
Definition modify (f : S -> S) : M S E unit := fun s => (Normal tt, f s, []).

(** An outward action. *)
Definition emit (e : E) : M S E unit := fun s => (Normal tt, s, [e]).

Definition throw {A} (t : thrown) : M S E A := fun s => (Throw t, s, []).

(** [await p] for a promise that settles as [p]. *)
Definition await {A} (p : awaited A) : M S E A :=
  match p with
  | Fulfilled a => mret a
  | Rejected t => throw t
  end.

(** [try { body } catch (err) { handler err }] *)
Definition tryCatch {A} (body : M S E A) (handler : thrown -> M S E A)
  : M S E A :=
  fun s =>
    match body s with
    | (Normal a, s1, tr1) => (Normal a, s1, tr1)
    | (Throw t, s1, tr1) =>
        match handler t s1 with (r, s2, tr2) => (r, s2, tr1 ++ tr2) end
    end.

(** [try { body } finally { final }] *)
Definition tryFinally {A} (body : M S E A) (final : M S E unit)
  : M S E A :=
  fun s =>
    match body s with
    | (r, s1, tr1) =>
        match final s1 with
        | (Normal _, s2, tr2) => (r, s2, tr1 ++ tr2)
        | (Throw t, s2, tr2) => (Throw t, s2, tr1 ++ tr2)
        end
    end.

(** [if (c) { body }] *)
Definition when (c : bool) (body : M S E unit) : M S E unit :=
  if c then body else mret tt.

Definition finalState {A} (r : completion A * S * list E) : S := snd (fst r).
Definition trace {A} (r : completion A * S * list E) : list E := snd r.
Definition result {A} (r : completion A * S * list E) : completion A :=
  fst (fst r).
End Ops.

#[global] Instance Monad_M {S E} : Monad (M S E) :=
  {| ret := @mret S E; bind := @mbind S E |}.

(** A handler is a closure over the state of the render that created it:
    it reads that snapshot and its setters act on the live state. *)
Definition run {S E A} (h : S -> M S E A) (s : S) : completion A * S * list E :=
  h s s.
Arguments run : simpl never.

End Handler.
Import Handler.

(** ** Token store (auth/localAuth) *)

Module LocalAuth.

(** The single global slot holding the shared bearer token. *)
Definition Store := option jsstring.

(** Modelled from the spec: auth/localAuth is not among the sources; the
    token store's [get() -> Token | absent] reads the single global slot. *)
Definition getLocalAuthToken (st : Store) : option jsstring := st.

(** Modelled from the spec: auth/localAuth is not among the sources; the
    token store's [set(token) -> void] overwrites the single global slot. *)
Definition setLocalAuthToken (token : jsstring) (st : Store) : Store :=
  Some token.

End LocalAuth.

(** ** Login view (components/organisms/LocalAuthLogin.tsx) *)

Module LocalAuthLogin.

(** Component state: the two [useState] cells. *)
Record State : Type := mkState {
  token : jsstring;
  error : option jsstring
}.

(** What a submission can touch: the component and the token store. *)
Record World : Type := mkWorld {
  ui : State;
  store : LocalAuth.Store
}.

Inductive effect : Type :=
| PreventDefault
| Reload.

Definition initial : State := {| token := []; error := None |}.

Definition setToken (v : jsstring) (w : World) : World :=
  {| ui := {| token := v; error := error (ui w) |}; store := store w |}.

Definition setError (v : option jsstring) (w : World) : World :=
  {| ui := {| token := token (ui w); error := v |}; store := store w |}.

Definition setLocalAuthToken (v : jsstring) (w : World) : World :=
  {| ui := ui w; store := LocalAuth.setLocalAuthToken v (store w) |}.

Definition handleSubmit (snap : World) : M World effect unit :=
  emit PreventDefault ;;
  let cleaned := trim (token (ui snap)) in
  if negb (truthy cleaned) then
    modify (setError (Some (str "Bearer token is required.")))
  else
    modify (setLocalAuthToken cleaned) ;;
    modify (setError None) ;;
    emit Reload.

(** The inline message of the form: [{error ? <p>{error}</p> : null}]. *)
Definition inlineError (s : State) : option jsstring :=
  if truthyOpt (error s) then error s else None.

End LocalAuthLogin.

(** ** Auth provider wrapper *)

Module AuthProvider.

(** What the provider reads: the mode flag ([isLocalAuthMode()]), the token
    store and the two environment variables. *)
Record Env : Type := mkEnv {
  isLocalAuthMode : bool;
  store : LocalAuth.Store;
  NEXT_PUBLIC_CLERK_PUBLISHABLE_KEY : option jsstring;
  NEXT_PUBLIC_CLERK_AFTER_SIGN_OUT_URL : option jsstring
}.

(** The element the provider returns, over children of type [C]. *)
Inductive element (C : Type) : Type :=
| LocalAuthLoginView
| Fragment (children : C)
| ClerkProvider (publishableKey : option jsstring)
                (afterSignOutUrl : jsstring) (children : C).
Arguments LocalAuthLoginView {C}.
Arguments Fragment {C} children.
Arguments ClerkProvider {C} publishableKey afterSignOutUrl children.

Section Provider.
(** auth/clerkKey is not among the sources: the plausibility test of the
    publishable key is a parameter. *)
Variable isLikelyValidClerkPublishableKey : option jsstring -> bool.
Context {C : Type}.

Definition AuthProvider (env : Env) (children : C) : element C :=
  if isLocalAuthMode env then
    if negb (truthyOpt (LocalAuth.getLocalAuthToken (store env))) then
      LocalAuthLoginView
    else
      Fragment children
  else
    let publishableKey := NEXT_PUBLIC_CLERK_PUBLISHABLE_KEY env in
    let afterSignOutUrl :=
      nullish (NEXT_PUBLIC_CLERK_AFTER_SIGN_OUT_URL env) (str "/") in
    if negb (isLikelyValidClerkPublishableKey publishableKey) then
      Fragment children
    else
      ClerkProvider publishableKey afterSignOutUrl children.
End Provider.

End AuthProvider.


(** ** The REST interface shared by the agent forms *)

Module Api.

Module Board.
Record t : Type := mk {
  id : jsstring;
  name : jsstring;
  slug : jsstring
}.
End Board.

Inductive Method : Type :=
| GET      (* no [method] given to [fetch] *)
| POST
| PATCH.

Record HeartbeatConfig : Type := mkHeartbeatConfig {
  every : jsstring;
  target : jsstring
}.

(** The object handed to [JSON.stringify] by the two submit handlers. *)
Module Payload.
Record t : Type := mk {
  name : jsstring;
  board_id : jsstring;
  heartbeat_config : HeartbeatConfig;
  identity_template : option jsstring;
  soul_template : option jsstring
}.
End Payload.

(** The arguments of one [fetch] call; [headers] keeps the order of the
    object literal. *)
Record Request : Type := mkRequest {
  url : jsstring;
  method : Method;
  headers : list (jsstring * jsstring);
  body : option Payload.t
}.

Fixpoint lookupHeader (name : jsstring) (hs : list (jsstring * jsstring))
  : option jsstring :=
  match hs with
  | [] => None
  | (k, v) :: rest => if streq k name then Some v else lookupHeader name rest
  end.

Definition header (name : string) (r : Request) : option jsstring :=
  lookupHeader (str name) (headers r).

(** A response whose body, once read, is cast to [T]. *)
Record Response (T : Type) : Type := mkResponse {
  ok : bool;
  json : awaited T
}.
Arguments mkResponse {T} ok json.
Arguments ok {T} r.
Arguments json {T} r.

(** The result of [useAuth()]: the settled value of the one [getToken()]
    call a handler makes, and the sign-in flag. *)
Record Auth : Type := mkAuth {
  getToken : awaited (option jsstring);
  isSignedIn : option bool
}.

Inductive effect : Type :=
| PreventDefault
| Fetch (r : Request)
| RouterPush (href : jsstring).

(** [fetch(...)]: the call is issued, then settles as [outcome]. *)
Definition fetch {S T} (r : Request) (outcome : awaited (Response T))
  : M S effect (Response T) :=
  emit (Fetch r) ;; await outcome.

(** [err instanceof Error ? err.message : "Something went wrong."] *)
Definition errorMessage (err : thrown) : jsstring :=
  match err with
  | ErrorObject message => message
  | OtherValue => str "Something went wrong."
  end.

Record SearchableSelectOption : Type := mkOption {
  value : jsstring;
  label : jsstring
}.

Definition HEARTBEAT_TARGET_OPTIONS : list SearchableSelectOption :=
  [ {| value := str "none"; label := str "None (no outbound message)" |};
    {| value := str "last"; label := str "Last channel" |} ].

(** Modelled from the spec: components/ui/searchable-select is not among
    the sources; the selector shows as selected the option whose [value] is
    the [value] it is given. *)
Definition selectedOption (v : jsstring) (options : list SearchableSelectOption)
  : option SearchableSelectOption :=
  find (fun o => streq (value o) v) options.

(** The requests among the actions of a handler run. *)
Fixpoint requests (tr : list effect) : list Request :=
  match tr with
  | [] => []
  | Fetch r :: rest => r :: requests rest
  | _ :: rest => requests rest
  end.

(** The navigations among the actions of a handler run. *)
Fixpoint navigations (tr : list effect) : list jsstring :=
  match tr with
  | [] => []
  | RouterPush href :: rest => href :: navigations rest
  | _ :: rest => navigations rest
  end.

End Api.
Import Api.

(** ** Agent creation form (app/agents/new/page.tsx) *)

Module NewAgentPage.

Module Agent.
Record t : Type := mk {
  id : jsstring;
  name : jsstring
}.
End Agent.

Record State : Type := mkState {
  name : jsstring;
  boards : list Board.t;
  boardId : jsstring;
  heartbeatEvery : jsstring;
  heartbeatTarget : jsstring;
  identityTemplate : jsstring;
  soulTemplate : jsstring;
  isLoading : bool;
  error : option jsstring
}.

Definition setName v (s : State) : State :=
  mkState v (boards s) (boardId s) (heartbeatEvery s) (heartbeatTarget s)
          (identityTemplate s) (soulTemplate s) (isLoading s) (error s).
Definition setBoards v (s : State) : State :=
  mkState (name s) v (boardId s) (heartbeatEvery s) (heartbeatTarget s)
          (identityTemplate s) (soulTemplate s) (isLoading s) (error s).
Definition setBoardId v (s : State) : State :=
  mkState (name s) (boards s) v (heartbeatEvery s) (heartbeatTarget s)
          (identityTemplate s) (soulTemplate s) (isLoading s) (error s).
Definition setHeartbeatEvery v (s : State) : State :=
  mkState (name s) (boards s) (boardId s) v (heartbeatTarget s)
          (identityTemplate s) (soulTemplate s) (isLoading s) (error s).
Definition setHeartbeatTarget v (s : State) : State :=
  mkState (name s) (boards s) (boardId s) (heartbeatEvery s) v
          (identityTemplate s) (soulTemplate s) (isLoading s) (error s).
Definition setIdentityTemplate v (s : State) : State :=
  mkState (name s) (boards s) (boardId s) (heartbeatEvery s) (heartbeatTarget s)
          v (soulTemplate s) (isLoading s) (error s).
Definition setSoulTemplate v (s : State) : State :=
  mkState (name s) (boards s) (boardId s) (heartbeatEvery s) (heartbeatTarget s)
          (identityTemplate s) v (isLoading s) (error s).
Definition setIsLoading v (s : State) : State :=
  mkState (name s) (boards s) (boardId s) (heartbeatEvery s) (heartbeatTarget s)
          (identityTemplate s) (soulTemplate s) v (error s).
Definition setError v (s : State) : State :=
  mkState (name s) (boards s) (boardId s) (heartbeatEvery s) (heartbeatTarget s)
          (identityTemplate s) (soulTemplate s) (isLoading s) v.

Section Page.
(** lib/api-base and lib/agent-templates are not among the sources: the base
    URL and the two built-in templates are parameters. *)
Variable apiBase : jsstring.
Variables DEFAULT_IDENTITY_TEMPLATE DEFAULT_SOUL_TEMPLATE : jsstring.
(** [useAuth()] *)
Variable auth : Auth.

Definition initial : State :=
  {| name := [];
     boards := [];
     boardId := [];
     heartbeatEvery := str "10m";
     heartbeatTarget := str "none";
     identityTemplate := DEFAULT_IDENTITY_TEMPLATE;
     soulTemplate := DEFAULT_SOUL_TEMPLATE;
     isLoading := false;
     error := None |}.

(** The arguments of the [fetch] call of [loadBoards]. *)
Definition boardsRequest (token : option jsstring) : Request :=
  {| url := apiBase ++ str "/api/v1/boards";
     method := GET;
     headers :=
       [ (str "Authorization",
          if truthyOpt token then str "Bearer " ++ splice token else []) ];
     body := None |}.

Definition loadBoards (net : awaited (Response (list Board.t))) (snap : State)
  : M State effect unit :=
  if negb (truthyFlag (isSignedIn auth)) then ret tt
  else
    tryCatch
      (token <- await (getToken auth) ;;
       response <-
         fetch (boardsRequest token) net ;;
       (if negb (ok response)
        then throw (ErrorObject (str "Unable to load boards."))
        else ret tt) ;;
       data <- await (json response) ;;
       modify (setBoards data) ;;
       match data with
       | first :: _ =>
           (* [data.length > 0], and [data[0]] is [first] *)
           when (negb (truthy (boardId snap)))
                (modify (setBoardId (Board.id first)))
       | [] => ret tt
       end)
      (fun err => modify (setError (Some (errorMessage err)))).

(** The arguments of the [fetch] call of [handleSubmit]; [trimmed] there is
    [name.trim()]. *)
Definition createRequest (token : option jsstring) (snap : State) : Request :=
  {| url := apiBase ++ str "/api/v1/agents";
     method := POST;
     headers :=
       [ (str "Content-Type", str "application/json");
         (str "Authorization",
          if truthyOpt token then str "Bearer " ++ splice token else []) ];
     body :=
       Some
         {| Payload.name := trim (name snap);
            Payload.board_id := boardId snap;
            Payload.heartbeat_config :=
              {| every := orElse (trim (heartbeatEvery snap)) (str "10m");
                 target := heartbeatTarget snap |};
            Payload.identity_template := orNull (trim (identityTemplate snap));
            Payload.soul_template := orNull (trim (soulTemplate snap)) |} |}.

Definition handleSubmit (net : awaited (Response Agent.t)) (snap : State)
  : M State effect unit :=
  emit PreventDefault ;;
  if negb (truthyFlag (isSignedIn auth)) then ret tt
  else
    let trimmed := trim (name snap) in
    if negb (truthy trimmed) then
      modify (setError (Some (str "Agent name is required.")))
    else if negb (truthy (boardId snap)) then
      modify (setError (Some (str "Select a board before creating an agent.")))
    else
      modify (setIsLoading true) ;;
      modify (setError None) ;;
      tryFinally
        (tryCatch
           (token <- await (getToken auth) ;;
            response <-
              fetch (createRequest token snap) net ;;
            (if negb (ok response)
             then throw (ErrorObject (str "Unable to create agent."))
             else ret tt) ;;
            created <- await (json response) ;;
            emit (RouterPush (str "/agents/" ++ Agent.id created)))
           (fun err => modify (setError (Some (errorMessage err)))))
        (modify (setIsLoading false)).

End Page.

(** The inline message of the form: [{error ? <div>{error}</div> : null}]. *)
Definition inlineError (s : State) : option jsstring :=
  if truthyOpt (error s) then error s else None.

(** [getBoardOptions]: one selector option per board, in order. *)
Definition getBoardOptions (boards : list Board.t) : list SearchableSelectOption :=
  map (fun board => {| value := Board.id board; label := Board.name board |})
      boards.

End NewAgentPage.


(** ** Agent edit form *)

Module EditAgentPage.

Module Agent.
(** [heartbeat_config?: { every?: string; target?: string } | null] *)
Record heartbeat : Type := mkHeartbeat {
  every : option jsstring;
  target : option jsstring
}.
(** An absent ([undefined]) and a [null] member are both [None]. *)
Record t : Type := mk {
  id : jsstring;
  name : jsstring;
  board_id : option jsstring;
  heartbeat_config : option heartbeat;
  identity_template : option jsstring;
  soul_template : option jsstring
}.
End Agent.

(** The [agentId] member of [useParams()]. *)
Inductive param : Type :=
| One (s : jsstring)
| Many (l : list jsstring).

Record State : Type := mkState {
  agent : option Agent.t;
  name : jsstring;
  boards : list Board.t;
  boardId : jsstring;
  heartbeatEvery : jsstring;
  heartbeatTarget : jsstring;
  identityTemplate : jsstring;
  soulTemplate : jsstring;
  isLoading : bool;
  error : option jsstring
}.

Definition setAgent v (s : State) : State :=
  mkState v (name s) (boards s) (boardId s) (heartbeatEvery s)
          (heartbeatTarget s) (identityTemplate s) (soulTemplate s)
          (isLoading s) (error s).
Definition setName v (s : State) : State :=
  mkState (agent s) v (boards s) (boardId s) (heartbeatEvery s)
          (heartbeatTarget s) (identityTemplate s) (soulTemplate s)
          (isLoading s) (error s).
Definition setBoards v (s : State) : State :=
  mkState (agent s) (name s) v (boardId s) (heartbeatEvery s)
          (heartbeatTarget s) (identityTemplate s) (soulTemplate s)
          (isLoading s) (error s).
Definition setBoardId v (s : State) : State :=
  mkState (agent s) (name s) (boards s) v (heartbeatEvery s)
          (heartbeatTarget s) (identityTemplate s) (soulTemplate s)
          (isLoading s) (error s).
Definition setHeartbeatEvery v (s : State) : State :=
  mkState (agent s) (name s) (boards s) (boardId s) v
          (heartbeatTarget s) (identityTemplate s) (soulTemplate s)
          (isLoading s) (error s).
Definition setHeartbeatTarget v (s : State) : State :=
  mkState (agent s) (name s) (boards s) (boardId s) (heartbeatEvery s)
          v (identityTemplate s) (soulTemplate s)
          (isLoading s) (error s).
Definition setIdentityTemplate v (s : State) : State :=
  mkState (agent s) (name s) (boards s) (boardId s) (heartbeatEvery s)
          (heartbeatTarget s) v (soulTemplate s)
          (isLoading s) (error s).
Definition setSoulTemplate v (s : State) : State :=
  mkState (agent s) (name s) (boards s) (boardId s) (heartbeatEvery s)
          (heartbeatTarget s) (identityTemplate s) v
          (isLoading s) (error s).
Definition setIsLoading v (s : State) : State :=
  mkState (agent s) (name s) (boards s) (boardId s) (heartbeatEvery s)
          (heartbeatTarget s) (identityTemplate s) (soulTemplate s)
          v (error s).
Definition setError v (s : State) : State :=
  mkState (agent s) (name s) (boards s) (boardId s) (heartbeatEvery s)
          (heartbeatTarget s) (identityTemplate s) (soulTemplate s)
          (isLoading s) v.

(** [data.heartbeat_config?.every] *)
Definition heartbeatEveryOf (data : Agent.t) : option jsstring :=
  match Agent.heartbeat_config data with
  | Some h => Agent.every h
  | None => None
  end.

(** [data.heartbeat_config?.target] *)
Definition heartbeatTargetOf (data : Agent.t) : option jsstring :=
  match Agent.heartbeat_config data with
  | Some h => Agent.target h
  | None => None
  end.

(** [value?.trim() || fallback] *)
Definition trimmedOr (v : option jsstring) (fallback : jsstring) : jsstring :=
  match v with
  | Some s => orElse (trim s) fallback
  | None => fallback
  end.

Section Page.
(** lib/api-base and lib/agent-templates are not among the sources: the base
    URL and the two built-in templates are parameters. *)
Variable apiBase : jsstring.
Variables DEFAULT_IDENTITY_TEMPLATE DEFAULT_SOUL_TEMPLATE : jsstring.
(** [useAuth()] *)
Variable auth : Auth.
(** [useParams()?.agentId] *)
Variable agentIdParam : option param.

Definition agentId : option jsstring :=
  match agentIdParam with
  | Some (Many l) => nth_error l 0
  | Some (One s) => Some s
  | None => None
  end.

Definition initial : State :=
  {| agent := None;
     name := [];
     boards := [];
     boardId := [];
     heartbeatEvery := str "10m";
     heartbeatTarget := str "none";
     identityTemplate := DEFAULT_IDENTITY_TEMPLATE;
     soulTemplate := DEFAULT_SOUL_TEMPLATE;
     isLoading := false;
     error := None |}.

(** The arguments of the [fetch] call of [loadBoards]. *)
Definition boardsRequest (token : option jsstring) : Request :=
  {| url := apiBase ++ str "/api/v1/boards";
     method := GET;
     headers :=
       [ (str "Authorization",
          if truthyOpt token then str "Bearer " ++ splice token else []) ];
     body := None |}.

Definition loadBoards (net : awaited (Response (list Board.t))) (snap : State)
  : M State effect unit :=
  if negb (truthyFlag (isSignedIn auth)) then ret tt
  else
    tryCatch
      (token <- await (getToken auth) ;;
       response <-
         fetch (boardsRequest token) net ;;
       (if negb (ok response)
        then throw (ErrorObject (str "Unable to load boards."))
        else ret tt) ;;
       data <- await (json response) ;;
       modify (setBoards data))
      (fun err => modify (setError (Some (errorMessage err)))).

(** The arguments of the [fetch] call of [loadAgent]. *)
Definition agentRequest (token : option jsstring) : Request :=
  {| url := apiBase ++ str "/api/v1/agents/" ++ splice agentId;
     method := GET;
     headers :=
       [ (str "Authorization",
          if truthyOpt token then str "Bearer " ++ splice token else []) ];
     body := None |}.

Definition loadAgent (net : awaited (Response Agent.t)) (snap : State)
  : M State effect unit :=
  if negb (truthyFlag (isSignedIn auth)) || negb (truthyOpt agentId) then ret tt
  else
    modify (setIsLoading true) ;;
    modify (setError None) ;;
    tryFinally
      (tryCatch
         (token <- await (getToken auth) ;;
          response <-
            fetch (agentRequest token) net ;;
          (if negb (ok response)
           then throw (ErrorObject (str "Unable to load agent."))
           else ret tt) ;;
          data <- await (json response) ;;
          modify (setAgent (Some data)) ;;
          modify (setName (Agent.name data)) ;;
          when (truthyOpt (Agent.board_id data))
               (modify (setBoardId (splice (Agent.board_id data)))) ;;
          when (truthyOpt (heartbeatEveryOf data))
               (modify (setHeartbeatEvery (splice (heartbeatEveryOf data)))) ;;
          when (truthyOpt (heartbeatTargetOf data))
               (modify (setHeartbeatTarget (splice (heartbeatTargetOf data)))) ;;
          modify (setIdentityTemplate
                    (trimmedOr (Agent.identity_template data)
                               DEFAULT_IDENTITY_TEMPLATE)) ;;
          modify (setSoulTemplate
                    (trimmedOr (Agent.soul_template data)
                               DEFAULT_SOUL_TEMPLATE)))
         (fun err => modify (setError (Some (errorMessage err)))))
      (modify (setIsLoading false)).

(** The arguments of the [fetch] call of [handleSubmit]; [trimmed] there is
    [name.trim()]. *)
Definition updateRequest (token : option jsstring) (snap : State) : Request :=
  {| url := apiBase ++ str "/api/v1/agents/" ++ splice agentId;
     method := PATCH;
     headers :=
       [ (str "Content-Type", str "application/json");
         (str "Authorization",
          if truthyOpt token then str "Bearer " ++ splice token else []) ];
     body :=
       Some
         {| Payload.name := trim (name snap);
            Payload.board_id := boardId snap;
            Payload.heartbeat_config :=
              {| Api.every := orElse (trim (heartbeatEvery snap)) (str "10m");
                 Api.target := heartbeatTarget snap |};
            Payload.identity_template := orNull (trim (identityTemplate snap));
            Payload.soul_template := orNull (trim (soulTemplate snap)) |} |}.

Definition handleSubmit {T} (net : awaited (Response T)) (snap : State)
  : M State effect unit :=
  emit PreventDefault ;;
  if negb (truthyFlag (isSignedIn auth)) || negb (truthyOpt agentId) then ret tt
  else
    let trimmed := trim (name snap) in
    if negb (truthy trimmed) then
      modify (setError (Some (str "Agent name is required.")))
    else if negb (truthy (boardId snap)) then
      modify (setError (Some (str "Select a board before saving.")))
    else
      modify (setIsLoading true) ;;
      modify (setError None) ;;
      tryFinally
        (tryCatch
           (token <- await (getToken auth) ;;
            response <-
              fetch (updateRequest token snap) net ;;
            (if negb (ok response)
             then throw (ErrorObject (str "Unable to update agent."))
             else ret tt) ;;
            emit (RouterPush (str "/agents/" ++ splice agentId)))
           (fun err => modify (setError (Some (errorMessage err)))))
        (modify (setIsLoading false)).

End Page.

(** The inline message of the form: [{error ? <div>{error}</div> : null}]. *)
Definition inlineError (s : State) : option jsstring :=
  if truthyOpt (error s) then error s else None.

(** The option the heartbeat target selector shows as selected:
    [<SearchableSelect value={heartbeatTarget}
       options={HEARTBEAT_TARGET_OPTIONS} />]. *)
Definition targetSelector (s : State) : option SearchableSelectOption :=
  selectedOption (heartbeatTarget s) HEARTBEAT_TARGET_OPTIONS.

(** [getBoardOptions]: one selector option per board, in order. *)
Definition getBoardOptions (boards : list Board.t) : list SearchableSelectOption :=
  map (fun board => {| value := Board.id board; label := Board.name board |})
      boards.

(** [agent?.board_id] *)
Definition agentBoardId (a : option Agent.t) : option jsstring :=
  match a with
  | Some x => Agent.board_id x
  | None => None
  end.

(** The second [useEffect] of the page, on [agent], [boards] and [boardId]:
    it gives the board selection a default. *)
Definition boardEffect (snap : State) : M State effect unit :=
  if truthy (boardId snap) then ret tt
  else if truthyOpt (agentBoardId (agent snap)) then
    modify (setBoardId (splice (agentBoardId (agent snap))))
  else
    match boards snap with
    | first :: _ =>
        (* [boards.length > 0], and [boards[0]] is [first] *)
        modify (setBoardId (Board.id first))
    | [] => ret tt
    end.

End EditAgentPage.


(** ** Vocabulary of the properties *)

(** The requests the two agent views can issue: those of any run of any of
    their five handlers. *)
Inductive issues (apiBase : jsstring) (auth : Auth)
          (agentIdParam : option EditAgentPage.param) : Request -> Prop :=
| issues_new_loadBoards net st r :
    In r (requests (trace (run (NewAgentPage.loadBoards apiBase auth net) st))) ->
    issues apiBase auth agentIdParam r
| issues_new_handleSubmit net st r :
    In r (requests (trace (run (NewAgentPage.handleSubmit apiBase auth net) st))) ->
    issues apiBase auth agentIdParam r
| issues_edit_loadBoards net st r :
    In r (requests (trace (run (EditAgentPage.loadBoards apiBase auth net) st))) ->
    issues apiBase auth agentIdParam r
| issues_edit_loadAgent dflt1 dflt2 net st r :
    In r (requests
            (trace (run (EditAgentPage.loadAgent apiBase dflt1 dflt2 auth
                                                 agentIdParam net) st))) ->
    issues apiBase auth agentIdParam r
| issues_edit_handleSubmit (T : Type) (net : awaited (Response T)) st r :
    In r (requests
            (trace (run (EditAgentPage.handleSubmit apiBase auth agentIdParam
                                                    net) st))) ->
    issues apiBase auth agentIdParam r.

(** One of the four consumed endpoints. *)
Definition endpoint (apiBase : jsstring) (r : Request) : Prop :=
  (method r = GET /\ url r = apiBase ++ str "/api/v1/boards")
  \/ (exists id, method r = GET /\ url r = apiBase ++ str "/api/v1/agents/" ++ id)
  \/ (method r = POST /\ url r = apiBase ++ str "/api/v1/agents")
  \/ (exists id, method r = PATCH
                 /\ url r = apiBase ++ str "/api/v1/agents/" ++ id).

(** A run that changed no component state and issued no request. *)
Definition noop {S A} (out : completion A * S * list effect) (before : S) : Prop :=
  finalState out = before /\ requests (trace out) = [].

(** A template member of a request body: [null], or a trimmed value that is
    not empty. *)
Definition templateOf (field : jsstring) (member : option jsstring) : Prop :=
  member <> Some []
  /\ (member = None \/ (member = Some (trim field) /\ trim field <> [])).


(** A token as the store is meant to hold it: not empty, nothing to trim. *)
Definition trimmedToken (t : jsstring) : Prop := t <> [] /\ trim t = t.

(** The token store is empty or holds a trimmed token. *)
Definition storeOk (s : LocalAuth.Store) : Prop :=
  match LocalAuth.getLocalAuthToken s with
  | None => True
  | Some t => trimmedToken t
  end.

(** Typing each of [inputs] into the login form and submitting it, in turn. *)
Fixpoint submitAll (inputs : list jsstring) (w : LocalAuthLogin.World)
  : LocalAuthLogin.World :=
  match inputs with
  | [] => w
  | input :: rest =>
      submitAll rest
        (finalState (run LocalAuthLogin.handleSubmit
                         (LocalAuthLogin.setToken input w)))
  end.


(** * Properties *)

(** ** Trimming *)

Section TrimFacts.

Lemma trimStart_nil_iff (s : jsstring) : trimStart s = [] <-> blank s = true.
Proof.
  unfold blank; induction s as [|c r IH]; simpl.
  - tauto.
  - destruct (isWhiteSpace c); simpl.
    + exact IH.
    + split; discriminate.
Qed.

(** What [trimStart] keeps starts with a character that is not white space. *)
Lemma trimStart_head (s : jsstring) c r :
  trimStart s = c :: r -> isWhiteSpace c = false.
Proof.
  induction s as [|d t IH]; simpl; [discriminate|].
  destruct (isWhiteSpace d) eqn:Hd; [exact IH|].
  intros [= <- _]; exact Hd.
Qed.

Lemma trimStart_split (s : jsstring) :
  exists pre, s = pre ++ trimStart s /\ blank pre = true.
Proof.
  induction s as [|c r [pre [Hs Hb]]]; simpl.
  - exists []; auto.
  - destruct (isWhiteSpace c) eqn:Hc.
    + exists (c :: pre); split; [simpl; congruence|].
      unfold blank in *; simpl; now rewrite Hc.
    + exists []; auto.
Qed.

Lemma blank_rev (s : jsstring) : blank (rev s) = blank s.
Proof.
  unfold blank; induction s as [|c r IH]; simpl; [reflexivity|].
  rewrite forallb_app, IH; simpl.
  rewrite andb_true_r; apply andb_comm.
Qed.

Lemma rev_nil_iff {A} (l : list A) : rev l = [] <-> l = [].
Proof.
  split; [|intros ->; reflexivity].
  intros H; apply (f_equal (@rev A)) in H; now rewrite rev_involutive in H.
Qed.

(** [s.trim()] is empty exactly when [s] is empty or white space only. *)
Lemma trim_nil_iff (s : jsstring) : trim s = [] <-> blank s = true.
Proof.
  unfold trim, trimEnd; split; intros H.
  - apply rev_nil_iff, trimStart_nil_iff in H.
    rewrite blank_rev in H.
    destruct (trimStart s) as [|c r] eqn:E.
    + now apply trimStart_nil_iff.
    + apply trimStart_head in E.
      unfold blank in H; simpl in H; now rewrite E in H.
  - apply trimStart_nil_iff in H; now rewrite H.
Qed.

Lemma truthy_false_iff (s : jsstring) : truthy s = false <-> s = [].
Proof. destruct s; simpl; split; congruence. Qed.

Lemma truthy_true_iff (s : jsstring) : truthy s = true <-> s <> [].
Proof. destruct s; simpl; split; congruence. Qed.

Lemma truthy_trim_blank (s : jsstring) : truthy (trim s) = negb (blank s).
Proof.
  destruct (blank s) eqn:E; simpl.
  - apply truthy_false_iff, trim_nil_iff, E.
  - apply truthy_true_iff; intros H; apply trim_nil_iff in H; congruence.
Qed.

(** [s.trim()] is [s] without a blank prefix and a blank suffix, and
    neither starts nor ends with white space. *)
Lemma trim_split (s : jsstring) :
  exists pre post,
    s = pre ++ trim s ++ post /\ blank pre = true /\ blank post = true.
Proof.
  destruct (trimStart_split s) as [pre [Hs Hpre]].
  destruct (trimStart_split (rev (trimStart s))) as [q [Hq Hbq]].
  exists pre, (rev q); repeat split; [|assumption|now rewrite blank_rev].
  unfold trim, trimEnd; rewrite <- rev_app_distr, <- Hq, rev_involutive.
  exact Hs.
Qed.

Lemma trim_first (s : jsstring) c r : trim s = c :: r -> isWhiteSpace c = false.
Proof.
  unfold trim, trimEnd; intros H.
  destruct (trimStart_split (rev (trimStart s))) as [q [Hq Hbq]].
  apply (f_equal (@rev N)) in Hq.
  rewrite rev_app_distr, H, rev_involutive in Hq.
  destruct (trimStart s) as [|d t] eqn:E; [discriminate|].
  simpl in Hq; injection Hq as <- _.
  now apply trimStart_head in E.
Qed.

Lemma trim_last (s : jsstring) r c : trim s = r ++ [c] -> isWhiteSpace c = false.
Proof.
  unfold trim, trimEnd; intros H.
  apply (f_equal (@rev N)) in H.
  rewrite rev_involutive, rev_app_distr in H; simpl in H.
  now apply trimStart_head in H.
Qed.

End TrimFacts.

(** ** Auth provider wrapper *)

Section AuthProviderFacts.
Import AuthProvider.
Variable isLikelyValidClerkPublishableKey : option jsstring -> bool.
Context {C : Type}.

(** C1. In local-auth mode the provider renders the login view when no token
    is stored and the children, unmodified, when a token is stored; which
    token it is plays no part, so nothing is validated against the backend. *)
Theorem AuthProvider_local_mode (env : Env) (children : C) :
  isLocalAuthMode env = true ->
  (LocalAuth.getLocalAuthToken (store env) = None ->
   AuthProvider isLikelyValidClerkPublishableKey env children
   = LocalAuthLoginView)
  /\ (forall token,
        LocalAuth.getLocalAuthToken (store env) = Some token ->
        token <> [] ->
        AuthProvider isLikelyValidClerkPublishableKey env children
        = Fragment children).
Proof.
  intros Hmode; unfold AuthProvider; rewrite Hmode; split.
  - intros ->; reflexivity.
  - intros token -> Hne; simpl.
    apply truthy_true_iff in Hne; now rewrite Hne.
Qed.

(** The stored empty string counts as no token at all. *)
Lemma AuthProvider_local_mode_empty_token (env : Env) (children : C) :
  isLocalAuthMode env = true ->
  LocalAuth.getLocalAuthToken (store env) = Some [] ->
  AuthProvider isLikelyValidClerkPublishableKey env children
  = LocalAuthLoginView.
Proof.
  intros Hmode Hget; unfold AuthProvider; now rewrite Hmode, Hget.
Qed.

(** C2. Outside local-auth mode, with a plausibility test that rejects an
    absent or empty key: an implausible key, in particular an absent or
    empty one, yields the bare children (a plain element, no error), and a
    plausible key yields the children wrapped in the hosted provider. *)
Theorem AuthProvider_hosted_mode (env : Env) (children : C) :
  (forall key, truthyOpt key = false ->
               isLikelyValidClerkPublishableKey key = false) ->
  isLocalAuthMode env = false ->
  let key := NEXT_PUBLIC_CLERK_PUBLISHABLE_KEY env in
  (isLikelyValidClerkPublishableKey key = false ->
   AuthProvider isLikelyValidClerkPublishableKey env children
   = Fragment children)
  /\ (key = None \/ key = Some [] ->
      AuthProvider isLikelyValidClerkPublishableKey env children
      = Fragment children)
  /\ (isLikelyValidClerkPublishableKey key = true ->
      AuthProvider isLikelyValidClerkPublishableKey env children
      = ClerkProvider key
          (nullish (NEXT_PUBLIC_CLERK_AFTER_SIGN_OUT_URL env) (str "/"))
          children).
Proof.
  intros Hspec Hmode key; unfold AuthProvider; rewrite Hmode; fold key.
  repeat split.
  - intros ->; reflexivity.
  - intros Hkey; rewrite Hspec; [reflexivity|].
    destruct Hkey as [-> | ->]; reflexivity.
  - intros ->; reflexivity.
Qed.

End AuthProviderFacts.

Lemma AuthProvider_local_mode_witness :
  AuthProvider.AuthProvider truthyOpt
    (AuthProvider.mkEnv true None None None) tt
  = AuthProvider.LocalAuthLoginView
  /\ AuthProvider.AuthProvider truthyOpt
       (AuthProvider.mkEnv true (Some (str "abc123")) None None) tt
     = AuthProvider.Fragment tt.
Proof.
  split.
  - apply (proj1 (AuthProvider_local_mode truthyOpt
                    (AuthProvider.mkEnv true None None None) tt eq_refl)).
    reflexivity.
  - apply (proj2 (AuthProvider_local_mode truthyOpt
                    (AuthProvider.mkEnv true (Some (str "abc123")) None None)
                    tt eq_refl) (str "abc123")).
    + reflexivity.
    + discriminate.
Defined.

Lemma AuthProvider_hosted_mode_witness :
  AuthProvider.AuthProvider truthyOpt
    (AuthProvider.mkEnv false None (Some []) None) tt
  = AuthProvider.Fragment tt
  /\ AuthProvider.AuthProvider truthyOpt
       (AuthProvider.mkEnv false None (Some (str "pk_test_abc")) None) tt
     = AuthProvider.ClerkProvider (Some (str "pk_test_abc")) (str "/") tt.
Proof.
  split.
  - apply (AuthProvider_hosted_mode truthyOpt
             (AuthProvider.mkEnv false None (Some []) None) tt
             (fun key H => H) eq_refl).
    right; reflexivity.
  - apply (AuthProvider_hosted_mode truthyOpt
             (AuthProvider.mkEnv false None (Some (str "pk_test_abc")) None) tt
             (fun key H => H) eq_refl).
    reflexivity.
Defined.

(** ** Login view *)

Section LocalAuthLoginFacts.
Import LocalAuthLogin.

(** C3. Submitting a token that is not empty after trimming stores exactly
    the trimmed value, clears the inline error and reloads the page. *)
Theorem login_submit_accepts (w : World) :
  trim (token (ui w)) <> [] ->
  let out := run handleSubmit w in
  result out = Normal tt
  /\ LocalAuth.getLocalAuthToken (store (finalState out))
     = Some (trim (token (ui w)))
  /\ error (ui (finalState out)) = None
  /\ inlineError (ui (finalState out)) = None
  /\ token (ui (finalState out)) = token (ui w)
  /\ trace out = [PreventDefault; Reload].
Proof.
  intros Hne; apply truthy_true_iff in Hne.
  unfold run, handleSubmit; cbn.
  unfold mbind, emit; cbn; rewrite Hne; cbn.
  repeat split.
Qed.

(** C4. Submitting an empty or white-space-only token leaves the token store
    as it was (an absent token stays absent), shows the "required" message
    inline and does not reload. *)
Theorem login_submit_rejects (w : World) :
  blank (token (ui w)) = true ->
  let out := run handleSubmit w in
  result out = Normal tt
  /\ store (finalState out) = store w
  /\ (LocalAuth.getLocalAuthToken (store w) = None ->
      LocalAuth.getLocalAuthToken (store (finalState out)) = None)
  /\ inlineError (ui (finalState out)) = Some (str "Bearer token is required.")
  /\ token (ui (finalState out)) = token (ui w)
  /\ trace out = [PreventDefault]
  /\ ~ In Reload (trace out).
Proof.
  intros Hb; apply trim_nil_iff in Hb.
  unfold run, handleSubmit; cbn.
  unfold mbind, emit; cbn; rewrite Hb; cbn.
  repeat split; auto.
  intros [H | []]; discriminate.
Qed.

End LocalAuthLoginFacts.

Lemma login_submit_accepts_witness :
  LocalAuthLogin.store
    (finalState
       (run LocalAuthLogin.handleSubmit
            (LocalAuthLogin.mkWorld
               (LocalAuthLogin.mkState (str "  abc123 ") None) None)))
  = Some (str "abc123").
Proof.
  apply (login_submit_accepts
           (LocalAuthLogin.mkWorld
              (LocalAuthLogin.mkState (str "  abc123 ") None) None)).
  vm_compute; discriminate.
Defined.

Lemma login_submit_rejects_witness :
  LocalAuthLogin.inlineError
    (LocalAuthLogin.ui
       (finalState
          (run LocalAuthLogin.handleSubmit
               (LocalAuthLogin.mkWorld
                  (LocalAuthLogin.mkState (str "   ") None) None))))
  = Some (str "Bearer token is required.").
Proof.
  apply (login_submit_rejects
           (LocalAuthLogin.mkWorld
              (LocalAuthLogin.mkState (str "   ") None) None)).
  reflexivity.
Defined.

(** ** Runs of the agent form handlers *)

Ltac unfold_monad :=
  unfold run, fetch, when; cbn;
  unfold mbind, mret, tryFinally, tryCatch, await, throw, modify, emit; cbn.

Lemma truthyOpt_true_inv (o : option jsstring) :
  truthyOpt o = true -> exists s, o = Some s /\ s <> [].
Proof.
  destruct o as [s|]; simpl; [|discriminate].
  intros H; exists s; split; [reflexivity|now apply truthy_true_iff].
Qed.

Lemma orNull_templateOf (field : jsstring) : templateOf field (orNull (trim field)).
Proof.
  unfold templateOf, orNull.
  destruct (truthy (trim field)) eqn:E.
  - apply truthy_true_iff in E; split; [congruence|right; auto].
  - split; [discriminate|left; reflexivity].
Qed.

Section NewAgentPageRuns.
Import NewAgentPage.
Variable apiBase : jsstring.
Variable auth : Auth.

Lemma new_loadBoards_signed_out net st :
  truthyFlag (isSignedIn auth) = false ->
  run (loadBoards apiBase auth net) st = (Normal tt, st, []).
Proof.
  intros Hs; unfold loadBoards; unfold_monad; now rewrite Hs.
Qed.

Lemma new_loadBoards_requests net st r :
  In r (requests (trace (run (loadBoards apiBase auth net) st))) ->
  exists token, getToken auth = Fulfilled token /\ r = boardsRequest apiBase token.
Proof.
  unfold loadBoards; unfold_monad.
  destruct (truthyFlag (isSignedIn auth)); cbn; [|tauto].
  destruct (getToken auth) as [token|t]; cbn; [|tauto].
  destruct net as [[[] [[|first data]|t]]|t]; cbn;
    try destruct (truthy (boardId st)); cbn; intros [<-|[]]; eauto.
Qed.

Lemma new_handleSubmit_signed_out net st :
  truthyFlag (isSignedIn auth) = false ->
  run (handleSubmit apiBase auth net) st = (Normal tt, st, [PreventDefault]).
Proof.
  intros Hs; unfold handleSubmit; unfold_monad; now rewrite Hs.
Qed.

(** A submission that fails validation only sets the error. *)
Lemma new_handleSubmit_invalid net st :
  truthyFlag (isSignedIn auth) = true ->
  blank (name st) = true \/ boardId st = [] ->
  exists message,
    run (handleSubmit apiBase auth net) st
    = (Normal tt, setError (Some message) st, [PreventDefault])
    /\ (message = str "Agent name is required."
        \/ message = str "Select a board before creating an agent.").
Proof.
  intros Hs Hbad; unfold handleSubmit; unfold_monad; rewrite Hs; cbn.
  rewrite truthy_trim_blank.
  destruct (blank (name st)); cbn; [eauto|].
  destruct Hbad as [Hbad | ->]; [discriminate|cbn; eauto].
Qed.

(** The actions of a submission that passes validation. *)
Lemma new_handleSubmit_valid_trace net st :
  truthyFlag (isSignedIn auth) = true ->
  trim (name st) <> [] ->
  boardId st <> [] ->
  trace (run (handleSubmit apiBase auth net) st)
  = PreventDefault ::
    match getToken auth with
    | Rejected _ => []
    | Fulfilled token =>
        Fetch (createRequest apiBase token st) ::
        match net with
        | Fulfilled {| ok := true; json := Fulfilled created |} =>
            [RouterPush (str "/agents/" ++ Agent.id created)]
        | _ => []
        end
    end.
Proof.
  intros Hs Hn Hb; apply truthy_true_iff in Hn, Hb.
  unfold handleSubmit; unfold_monad; rewrite Hs, Hn, Hb; cbn.
  destruct (getToken auth) as [token|t]; cbn; [|reflexivity].
  destruct net as [[[] [created|t]]|t]; reflexivity.
Qed.

Lemma new_handleSubmit_requests net st r :
  In r (requests (trace (run (handleSubmit apiBase auth net) st))) ->
  exists token,
    getToken auth = Fulfilled token /\ r = createRequest apiBase token st.
Proof.
  unfold handleSubmit; unfold_monad.
  destruct (truthyFlag (isSignedIn auth)); cbn; [|tauto].
  destruct (truthy (trim (name st))); cbn; [|tauto].
  destruct (truthy (boardId st)); cbn; [|tauto].
  destruct (getToken auth) as [token|t]; cbn; [|tauto].
  destruct net as [[[] [created|t]]|t]; cbn; intros [<-|[]]; eauto.
Qed.

End NewAgentPageRuns.

Section EditAgentPageRuns.
Import EditAgentPage.
Variable apiBase : jsstring.
Variables DEFAULT_IDENTITY_TEMPLATE DEFAULT_SOUL_TEMPLATE : jsstring.
Variable auth : Auth.
Variable agentIdParam : option param.

Lemma edit_loadBoards_signed_out net st :
  truthyFlag (isSignedIn auth) = false ->
  run (loadBoards apiBase auth net) st = (Normal tt, st, []).
Proof.
  intros Hs; unfold loadBoards; unfold_monad; now rewrite Hs.
Qed.

Lemma edit_loadBoards_requests net st r :
  In r (requests (trace (run (loadBoards apiBase auth net) st))) ->
  exists token, getToken auth = Fulfilled token /\ r = boardsRequest apiBase token.
Proof.
  unfold loadBoards; unfold_monad.
  destruct (truthyFlag (isSignedIn auth)); cbn; [|tauto].
  destruct (getToken auth) as [token|t]; cbn; [|tauto].
  destruct net as [[[] [data|t]]|t]; cbn; intros [<-|[]]; eauto.
Qed.

Lemma edit_loadAgent_signed_out net st :
  truthyFlag (isSignedIn auth) = false ->
  run (loadAgent apiBase DEFAULT_IDENTITY_TEMPLATE DEFAULT_SOUL_TEMPLATE
                 auth agentIdParam net) st
  = (Normal tt, st, []).
Proof.
  intros Hs; unfold loadAgent; unfold_monad; now rewrite Hs.
Qed.

Lemma edit_loadAgent_requests net st r :
  In r (requests
          (trace (run (loadAgent apiBase DEFAULT_IDENTITY_TEMPLATE
                                 DEFAULT_SOUL_TEMPLATE auth agentIdParam net)
                      st))) ->
  exists token,
    getToken auth = Fulfilled token
    /\ truthyOpt (agentId agentIdParam) = true
    /\ r = agentRequest apiBase agentIdParam token.
Proof.
  unfold loadAgent; unfold_monad.
  destruct (truthyFlag (isSignedIn auth)); cbn; [|tauto].
  destruct (truthyOpt (agentId agentIdParam)); cbn; [|tauto].
  destruct (getToken auth) as [token|t]; cbn; [|tauto].
  destruct net as [[[] [data|t]]|t]; cbn;
    try (destruct (truthyOpt (Agent.board_id data)),
                  (truthyOpt (heartbeatEveryOf data)),
                  (truthyOpt (heartbeatTargetOf data)); cbn);
    intros [<-|[]]; eauto.
Qed.

Lemma edit_handleSubmit_signed_out {T} (net : awaited (Response T)) st :
  truthyFlag (isSignedIn auth) = false ->
  run (handleSubmit apiBase auth agentIdParam net) st
  = (Normal tt, st, [PreventDefault]).
Proof.
  intros Hs; unfold handleSubmit; unfold_monad; now rewrite Hs.
Qed.

Lemma edit_handleSubmit_no_agentId {T} (net : awaited (Response T)) st :
  truthyOpt (agentId agentIdParam) = false ->
  run (handleSubmit apiBase auth agentIdParam net) st
  = (Normal tt, st, [PreventDefault]).
Proof.
  intros Hs; unfold handleSubmit; unfold_monad; rewrite Hs.
  now rewrite orb_true_r.
Qed.

(** A submission that fails validation only sets the error. *)
Lemma edit_handleSubmit_invalid {T} (net : awaited (Response T)) st :
  truthyFlag (isSignedIn auth) = true ->
  truthyOpt (agentId agentIdParam) = true ->
  blank (name st) = true \/ boardId st = [] ->
  exists message,
    run (handleSubmit apiBase auth agentIdParam net) st
    = (Normal tt, setError (Some message) st, [PreventDefault])
    /\ (message = str "Agent name is required."
        \/ message = str "Select a board before saving.").
Proof.
  intros Hs Hid Hbad; unfold handleSubmit; unfold_monad; rewrite Hs, Hid; cbn.
  rewrite truthy_trim_blank.
  destruct (blank (name st)); cbn; [eauto|].
  destruct Hbad as [Hbad | ->]; [discriminate|cbn; eauto].
Qed.

(** The actions of a submission that passes validation. *)
Lemma edit_handleSubmit_valid_trace {T} (net : awaited (Response T)) st :
  truthyFlag (isSignedIn auth) = true ->
  truthyOpt (agentId agentIdParam) = true ->
  trim (name st) <> [] ->
  boardId st <> [] ->
  trace (run (handleSubmit apiBase auth agentIdParam net) st)
  = PreventDefault ::
    match getToken auth with
    | Rejected _ => []
    | Fulfilled token =>
        Fetch (updateRequest apiBase agentIdParam token st) ::
        match net with
        | Fulfilled {| ok := true |} =>
            [RouterPush (str "/agents/" ++ splice (agentId agentIdParam))]
        | _ => []
        end
    end.
Proof.
  intros Hs Hid Hn Hb; apply truthy_true_iff in Hn, Hb.
  unfold handleSubmit; unfold_monad; rewrite Hs, Hid, Hn, Hb; cbn.
  destruct (getToken auth) as [token|t]; cbn; [|reflexivity].
  destruct net as [[[] js]|t]; reflexivity.
Qed.

Lemma edit_handleSubmit_requests {T} (net : awaited (Response T)) st r :
  In r (requests (trace (run (handleSubmit apiBase auth agentIdParam net) st))) ->
  exists token,
    getToken auth = Fulfilled token
    /\ truthyOpt (agentId agentIdParam) = true
    /\ r = updateRequest apiBase agentIdParam token st.
Proof.
  unfold handleSubmit; unfold_monad.
  destruct (truthyFlag (isSignedIn auth)); cbn; [|tauto].
  destruct (truthyOpt (agentId agentIdParam)); cbn; [|tauto].
  destruct (truthy (trim (name st))); cbn; [|tauto].
  destruct (truthy (boardId st)); cbn; [|tauto].
  destruct (getToken auth) as [token|t]; cbn; [|tauto].
  destruct net as [[[] js]|t]; cbn; intros [<-|[]]; eauto.
Qed.

End EditAgentPageRuns.

(** ** Agent creation form *)

(** C5, as stated, fails on three inputs that satisfy its premises (name
    ["Deploy bot"], board ["b1"]): signed out, no request is issued; with a
    token provider that rejects, no request is issued; and a 2xx response
    whose body cannot be read does not navigate. *)
Lemma create_submit_counterexample :
  let st :=
    NewAgentPage.setBoardId (str "b1")
      (NewAgentPage.setName (str "Deploy bot")
         (NewAgentPage.initial (str "identity") (str "soul"))) in
  let created :=
    Fulfilled {| ok := true;
                 json := Fulfilled (NewAgentPage.Agent.mk (str "a1")
                                                          (str "Deploy bot")) |} in
  let unreadable :=
    Fulfilled {| ok := true;
                 json := Rejected (ErrorObject (str "Unexpected end of JSON input")) |} in
  trim (NewAgentPage.name st) = str "Deploy bot"
  /\ NewAgentPage.boardId st = str "b1"
  /\ requests
       (trace (run (NewAgentPage.handleSubmit (str "http://localhost:8000")
                      {| getToken := Fulfilled (Some (str "abc123"));
                         isSignedIn := Some false |} created) st)) = []
  /\ requests
       (trace (run (NewAgentPage.handleSubmit (str "http://localhost:8000")
                      {| getToken := Rejected OtherValue;
                         isSignedIn := Some true |} created) st)) = []
  /\ navigations
       (trace (run (NewAgentPage.handleSubmit (str "http://localhost:8000")
                      {| getToken := Fulfilled (Some (str "abc123"));
                         isSignedIn := Some true |} unreadable) st)) = [].
Proof. vm_compute; repeat split. Qed.

(** C5 (amended). While the user is signed in and the token provider
    resolves, a submission of the creation form with a name that is not empty
    after trimming and a selected board issues exactly one request, a POST to
    the agents endpoint whose body holds the trimmed name, the selected board
    and, when the interval is blank, the interval ["10m"]; on a 2xx response
    whose body is read, the view navigates to the created agent. *)
Theorem create_submit_posts_once
        (apiBase : jsstring) (auth : Auth)
        (net : awaited (Response NewAgentPage.Agent.t))
        (st : NewAgentPage.State) (token : option jsstring) :
  truthyFlag (isSignedIn auth) = true ->
  getToken auth = Fulfilled token ->
  trim (NewAgentPage.name st) <> [] ->
  NewAgentPage.boardId st <> [] ->
  let out := run (NewAgentPage.handleSubmit apiBase auth net) st in
  exists req payload,
    requests (trace out) = [req]
    /\ method req = POST
    /\ url req = apiBase ++ str "/api/v1/agents"
    /\ body req = Some payload
    /\ Payload.name payload = trim (NewAgentPage.name st)
    /\ Payload.board_id payload = NewAgentPage.boardId st
    /\ (blank (NewAgentPage.heartbeatEvery st) = true ->
        every (Payload.heartbeat_config payload) = str "10m")
    /\ (forall created,
          net = Fulfilled {| ok := true; json := Fulfilled created |} ->
          navigations (trace out)
          = [str "/agents/" ++ NewAgentPage.Agent.id created]).
Proof.
  intros Hs Ht Hn Hb out; subst out.
  rewrite new_handleSubmit_valid_trace, Ht by assumption.
  eexists; eexists; split.
  - destruct net as [[[] [created|t]]|t]; reflexivity.
  - cbn; repeat split.
    + intros Hblank; apply trim_nil_iff in Hblank.
      unfold orElse; now rewrite Hblank.
    + intros created ->; reflexivity.
Qed.

Lemma create_submit_posts_once_witness :
  let st :=
    NewAgentPage.setBoardId (str "b1")
      (NewAgentPage.setHeartbeatEvery (str "  ")
         (NewAgentPage.setName (str " Deploy bot ")
            (NewAgentPage.initial (str "identity") (str "soul")))) in
  exists req payload,
    requests
      (trace (run (NewAgentPage.handleSubmit (str "http://localhost:8000")
                     {| getToken := Fulfilled (Some (str "abc123"));
                        isSignedIn := Some true |}
                     (Fulfilled
                        {| ok := true;
                           json := Fulfilled
                                     (NewAgentPage.Agent.mk (str "a1")
                                        (str "Deploy bot")) |})) st))
    = [req]
    /\ body req = Some payload
    /\ Payload.name payload = str "Deploy bot"
    /\ every (Payload.heartbeat_config payload) = str "10m".
Proof.
  intros st.
  destruct (create_submit_posts_once (str "http://localhost:8000")
              {| getToken := Fulfilled (Some (str "abc123"));
                 isSignedIn := Some true |}
              (Fulfilled
                 {| ok := true;
                    json := Fulfilled
                              (NewAgentPage.Agent.mk (str "a1")
                                 (str "Deploy bot")) |})
              st (Some (str "abc123")) eq_refl eq_refl)
    as [req [payload [H1 [_ [_ [H2 [H3 [_ [H4 _]]]]]]]]].
  - vm_compute; discriminate.
  - vm_compute; discriminate.
  - exists req, payload; repeat split; try assumption.
    apply H4; reflexivity.
Defined.

(** ** Validation errors of the two forms *)

(** C6, as stated, fails: with an empty name, a signed-out submission of the
    creation form, and a signed-in submission of the edit form without an
    agent id, show no inline error. *)
Lemma submit_validation_counterexample :
  blank (NewAgentPage.name (NewAgentPage.initial (str "identity") (str "soul")))
  = true
  /\ NewAgentPage.inlineError
       (finalState
          (run (NewAgentPage.handleSubmit (str "http://localhost:8000")
                  {| getToken := Fulfilled (Some (str "abc123"));
                     isSignedIn := Some false |}
                  (Rejected OtherValue))
               (NewAgentPage.initial (str "identity") (str "soul"))))
     = None
  /\ blank (EditAgentPage.name (EditAgentPage.initial (str "identity") (str "soul")))
     = true
  /\ EditAgentPage.inlineError
       (finalState
          (run (EditAgentPage.handleSubmit (str "http://localhost:8000")
                  {| getToken := Fulfilled (Some (str "abc123"));
                     isSignedIn := Some true |}
                  None
                  (@Rejected (Response unit) OtherValue))
               (EditAgentPage.initial (str "identity") (str "soul"))))
     = None.
Proof. vm_compute; repeat split. Qed.

(** C6 (amended). While the user is signed in (and, on the edit form, the
    route gives an agent id), a submission whose name is empty after trimming
    or whose board is not selected makes no network call and no navigation,
    shows a validation message inline and changes no other state; the form
    stays usable: once a name and a board are entered, the next submission
    sends its request. *)
Theorem submit_validation_error
        (apiBase : jsstring) (auth : Auth)
        (agentIdParam : option EditAgentPage.param) :
  truthyFlag (isSignedIn auth) = true ->
  (forall net st,
      blank (NewAgentPage.name st) = true \/ NewAgentPage.boardId st = [] ->
      let out := run (NewAgentPage.handleSubmit apiBase auth net) st in
      exists message,
        requests (trace out) = []
        /\ navigations (trace out) = []
        /\ finalState out = NewAgentPage.setError (Some message) st
        /\ NewAgentPage.inlineError (finalState out) = Some message
        /\ forall name' board' token net',
             getToken auth = Fulfilled token ->
             trim name' <> [] -> board' <> [] ->
             let st' := NewAgentPage.setBoardId board'
                          (NewAgentPage.setName name' (finalState out)) in
             requests (trace (run (NewAgentPage.handleSubmit apiBase auth net')
                                  st'))
             = [NewAgentPage.createRequest apiBase token st'])
  /\ (truthyOpt (EditAgentPage.agentId agentIdParam) = true ->
      forall (T : Type) (net : awaited (Response T)) st,
        blank (EditAgentPage.name st) = true \/ EditAgentPage.boardId st = [] ->
        let out := run (EditAgentPage.handleSubmit apiBase auth agentIdParam net)
                       st in
        exists message,
          requests (trace out) = []
          /\ navigations (trace out) = []
          /\ finalState out = EditAgentPage.setError (Some message) st
          /\ EditAgentPage.inlineError (finalState out) = Some message
          /\ forall name' board' token (T' : Type) (net' : awaited (Response T')),
               getToken auth = Fulfilled token ->
               trim name' <> [] -> board' <> [] ->
               let st' := EditAgentPage.setBoardId board'
                            (EditAgentPage.setName name' (finalState out)) in
               requests
                 (trace (run (EditAgentPage.handleSubmit apiBase auth
                                agentIdParam net') st'))
               = [EditAgentPage.updateRequest apiBase agentIdParam token st']).
Proof.
  intros Hs; split.
  - intros net st Hbad out; subst out.
    destruct (new_handleSubmit_invalid apiBase auth net st Hs Hbad)
      as [message [-> Hmsg]].
    exists message; cbn.
    split; [reflexivity|]; split; [reflexivity|]; split; [reflexivity|]; split.
    + unfold NewAgentPage.inlineError; cbn.
      destruct Hmsg as [-> | ->]; reflexivity.
    + intros name' board' token net' Ht Hn Hb.
      rewrite new_handleSubmit_valid_trace, Ht by assumption.
      destruct net' as [[[] [created|t]]|t]; reflexivity.
  - intros Hid T net st Hbad out; subst out.
    destruct (edit_handleSubmit_invalid apiBase auth agentIdParam net st
                Hs Hid Hbad) as [message [-> Hmsg]].
    exists message; cbn.
    split; [reflexivity|]; split; [reflexivity|]; split; [reflexivity|]; split.
    + unfold EditAgentPage.inlineError; cbn.
      destruct Hmsg as [-> | ->]; reflexivity.
    + intros name' board' token T' net' Ht Hn Hb.
      rewrite edit_handleSubmit_valid_trace, Ht by assumption.
      destruct net' as [[[] js]|t]; reflexivity.
Qed.

Lemma submit_validation_error_witness :
  exists message,
    NewAgentPage.inlineError
      (finalState
         (run (NewAgentPage.handleSubmit (str "http://localhost:8000")
                 {| getToken := Fulfilled (Some (str "abc123"));
                    isSignedIn := Some true |}
                 (Rejected OtherValue))
              (NewAgentPage.initial (str "identity") (str "soul"))))
    = Some message.
Proof.
  destruct (proj1 (submit_validation_error (str "http://localhost:8000")
                     {| getToken := Fulfilled (Some (str "abc123"));
                        isSignedIn := Some true |}
                     None eq_refl)
                  (Rejected OtherValue)
                  (NewAgentPage.initial (str "identity") (str "soul"))
                  (or_introl eq_refl))
    as [message [_ [_ [_ [H _]]]]].
  exists message; exact H.
Defined.

(** ** Loading the agent into the edit form *)

Lemma trimmedOr_value (v : option jsstring) (s fallback : jsstring) :
  v = Some s -> blank s = false ->
  EditAgentPage.trimmedOr v fallback = trim s.
Proof.
  intros -> Hb; unfold EditAgentPage.trimmedOr, orElse.
  now rewrite truthy_trim_blank, Hb.
Qed.

Lemma trimmedOr_fallback (v : option jsstring) (fallback : jsstring) :
  v = None \/ (exists s, v = Some s /\ blank s = true) ->
  EditAgentPage.trimmedOr v fallback = fallback.
Proof.
  intros [-> | [s [-> Hb]]]; [reflexivity|].
  unfold EditAgentPage.trimmedOr, orElse.
  now rewrite truthy_trim_blank, Hb.
Qed.

(** A member that is present and not empty is the value a guarded setter
    stores; otherwise the guard keeps the old value. *)
Lemma guarded_seed (v : option jsstring) (old : jsstring) :
  (forall s, v = Some s -> s <> [] ->
             (if truthyOpt v then splice v else old) = s)
  /\ (truthyOpt v = false -> (if truthyOpt v then splice v else old) = old).
Proof.
  split.
  - intros s -> Hne; cbn; apply truthy_true_iff in Hne; now rewrite Hne.
  - intros ->; reflexivity.
Qed.

(** The optional-chained accessors, in terms of the record's members. *)
Lemma heartbeatEveryOf_member (data : EditAgentPage.Agent.t) h :
  EditAgentPage.Agent.heartbeat_config data = Some h ->
  EditAgentPage.heartbeatEveryOf data = EditAgentPage.Agent.every h.
Proof. unfold EditAgentPage.heartbeatEveryOf; now intros ->. Qed.

Lemma heartbeatTargetOf_member (data : EditAgentPage.Agent.t) h :
  EditAgentPage.Agent.heartbeat_config data = Some h ->
  EditAgentPage.heartbeatTargetOf data = EditAgentPage.Agent.target h.
Proof. unfold EditAgentPage.heartbeatTargetOf; now intros ->. Qed.

Lemma truthyOpt_false_iff (o : option jsstring) :
  truthyOpt o = false <-> o = None \/ o = Some [].
Proof.
  destruct o as [[|c s]|]; cbn; split; auto; try discriminate.
  intros [H | H]; discriminate H.
Qed.

(** C7, as stated, fails: a record without board, interval and target,
    loaded successfully into a form holding board ["b9"], interval ["5m"]
    and target ["last"], leaves these three fields as they were (and the
    target selector on "Last channel"), so they are not seeded from the
    record. *)
Lemma loadAgent_seeds_form_counterexample :
  let data :=
    EditAgentPage.Agent.mk (str "a1") (str "Deploy bot") None None None None in
  let st :=
    EditAgentPage.setHeartbeatTarget (str "last")
      (EditAgentPage.setHeartbeatEvery (str "5m")
         (EditAgentPage.setBoardId (str "b9")
            (EditAgentPage.initial (str "identity") (str "soul")))) in
  let out :=
    run (EditAgentPage.loadAgent (str "http://localhost:8000")
           (str "identity") (str "soul")
           {| getToken := Fulfilled (Some (str "abc123"));
              isSignedIn := Some true |}
           (Some (EditAgentPage.One (str "a1")))
           (Fulfilled {| ok := true; json := Fulfilled data |})) st in
  EditAgentPage.agent (finalState out) = Some data
  /\ EditAgentPage.Agent.board_id data = None
  /\ EditAgentPage.Agent.heartbeat_config data = None
  /\ EditAgentPage.boardId (finalState out) = str "b9"
  /\ EditAgentPage.heartbeatEvery (finalState out) = str "5m"
  /\ EditAgentPage.heartbeatTarget (finalState out) = str "last"
  /\ EditAgentPage.targetSelector (finalState out)
     = Some {| value := str "last"; label := str "Last channel" |}.
Proof. vm_compute; repeat split. Qed.

(** C7 (amended). After a successful load of the agent record the form
    holds the record and its name; the board, the interval and the target
    are the record's [board_id], [heartbeat_config.every] and
    [heartbeat_config.target] whenever the record has one that is not empty,
    and keep their value otherwise; the identity and soul templates are the
    record's, trimmed, or the built-in defaults when the record's template
    is absent, empty or white space only. A record whose
    [heartbeat_config.target] is ["last"] leaves the target selector on
    "Last channel". *)
Theorem loadAgent_seeds_form
        (apiBase DEFAULT_IDENTITY_TEMPLATE DEFAULT_SOUL_TEMPLATE : jsstring)
        (auth : Auth) (agentIdParam : option EditAgentPage.param)
        (net : awaited (Response EditAgentPage.Agent.t))
        (st : EditAgentPage.State)
        (token : option jsstring) (data : EditAgentPage.Agent.t) :
  truthyFlag (isSignedIn auth) = true ->
  truthyOpt (EditAgentPage.agentId agentIdParam) = true ->
  getToken auth = Fulfilled token ->
  net = Fulfilled {| ok := true; json := Fulfilled data |} ->
  let out :=
    run (EditAgentPage.loadAgent apiBase DEFAULT_IDENTITY_TEMPLATE
           DEFAULT_SOUL_TEMPLATE auth agentIdParam net) st in
  let st' := finalState out in
  result out = Normal tt
  /\ EditAgentPage.agent st' = Some data
  /\ EditAgentPage.name st' = EditAgentPage.Agent.name data
  /\ (forall b, EditAgentPage.Agent.board_id data = Some b -> b <> [] ->
                EditAgentPage.boardId st' = b)
  /\ (EditAgentPage.Agent.board_id data = None
      \/ EditAgentPage.Agent.board_id data = Some [] ->
      EditAgentPage.boardId st' = EditAgentPage.boardId st)
  /\ (forall h e,
         EditAgentPage.Agent.heartbeat_config data = Some h ->
         EditAgentPage.Agent.every h = Some e -> e <> [] ->
         EditAgentPage.heartbeatEvery st' = e)
  /\ (EditAgentPage.Agent.heartbeat_config data = None
      \/ (exists h, EditAgentPage.Agent.heartbeat_config data = Some h
                    /\ (EditAgentPage.Agent.every h = None
                        \/ EditAgentPage.Agent.every h = Some [])) ->
      EditAgentPage.heartbeatEvery st' = EditAgentPage.heartbeatEvery st)
  /\ (forall h t,
         EditAgentPage.Agent.heartbeat_config data = Some h ->
         EditAgentPage.Agent.target h = Some t -> t <> [] ->
         EditAgentPage.heartbeatTarget st' = t)
  /\ (EditAgentPage.Agent.heartbeat_config data = None
      \/ (exists h, EditAgentPage.Agent.heartbeat_config data = Some h
                    /\ (EditAgentPage.Agent.target h = None
                        \/ EditAgentPage.Agent.target h = Some [])) ->
      EditAgentPage.heartbeatTarget st' = EditAgentPage.heartbeatTarget st)
  /\ (forall v, EditAgentPage.Agent.identity_template data = Some v ->
                blank v = false ->
                EditAgentPage.identityTemplate st' = trim v)
  /\ (EditAgentPage.Agent.identity_template data = None
      \/ (exists v, EditAgentPage.Agent.identity_template data = Some v
                    /\ blank v = true) ->
      EditAgentPage.identityTemplate st' = DEFAULT_IDENTITY_TEMPLATE)
  /\ (forall v, EditAgentPage.Agent.soul_template data = Some v ->
                blank v = false ->
                EditAgentPage.soulTemplate st' = trim v)
  /\ (EditAgentPage.Agent.soul_template data = None
      \/ (exists v, EditAgentPage.Agent.soul_template data = Some v
                    /\ blank v = true) ->
      EditAgentPage.soulTemplate st' = DEFAULT_SOUL_TEMPLATE)
  /\ EditAgentPage.boards st' = EditAgentPage.boards st
  /\ EditAgentPage.isLoading st' = false
  /\ EditAgentPage.error st' = None
  /\ (forall h,
         EditAgentPage.Agent.heartbeat_config data = Some h ->
         EditAgentPage.Agent.target h = Some (str "last") ->
         EditAgentPage.heartbeatTarget st' = str "last"
         /\ EditAgentPage.targetSelector st'
            = Some {| value := str "last"; label := str "Last channel" |}).
Proof.
  intros Hs Hid Ht -> out st'; subst st' out.
  assert (Hrun :
    run (EditAgentPage.loadAgent apiBase DEFAULT_IDENTITY_TEMPLATE
           DEFAULT_SOUL_TEMPLATE auth agentIdParam
           (Fulfilled {| ok := true; json := Fulfilled data |})) st
    = (Normal tt,
       EditAgentPage.mkState
         (Some data) (EditAgentPage.Agent.name data) (EditAgentPage.boards st)
         (if truthyOpt (EditAgentPage.Agent.board_id data)
          then splice (EditAgentPage.Agent.board_id data)
          else EditAgentPage.boardId st)
         (if truthyOpt (EditAgentPage.heartbeatEveryOf data)
          then splice (EditAgentPage.heartbeatEveryOf data)
          else EditAgentPage.heartbeatEvery st)
         (if truthyOpt (EditAgentPage.heartbeatTargetOf data)
          then splice (EditAgentPage.heartbeatTargetOf data)
          else EditAgentPage.heartbeatTarget st)
         (EditAgentPage.trimmedOr (EditAgentPage.Agent.identity_template data)
            DEFAULT_IDENTITY_TEMPLATE)
         (EditAgentPage.trimmedOr (EditAgentPage.Agent.soul_template data)
            DEFAULT_SOUL_TEMPLATE)
         false None,
       [Fetch (EditAgentPage.agentRequest apiBase agentIdParam token)])).
  { unfold EditAgentPage.loadAgent; unfold_monad; rewrite Hs, Hid, Ht; cbn.
    destruct (truthyOpt (EditAgentPage.Agent.board_id data)),
             (truthyOpt (EditAgentPage.heartbeatEveryOf data)),
             (truthyOpt (EditAgentPage.heartbeatTargetOf data));
      reflexivity. }
  rewrite Hrun; cbn.
  split; [reflexivity|]; split; [reflexivity|]; split; [reflexivity|].
  split; [apply guarded_seed|].
  split; [intros H; apply guarded_seed, truthyOpt_false_iff, H|].
  split.
  { intros h e Hh He Hne.
    apply guarded_seed; [|assumption].
    now rewrite (heartbeatEveryOf_member data h Hh). }
  split.
  { intros H; apply guarded_seed, truthyOpt_false_iff.
    destruct H as [H | [h [Hh H]]].
    - unfold EditAgentPage.heartbeatEveryOf; rewrite H; now left.
    - now rewrite (heartbeatEveryOf_member data h Hh). }
  split.
  { intros h t Hh Htg Hne.
    apply guarded_seed; [|assumption].
    now rewrite (heartbeatTargetOf_member data h Hh). }
  split.
  { intros H; apply guarded_seed, truthyOpt_false_iff.
    destruct H as [H | [h [Hh H]]].
    - unfold EditAgentPage.heartbeatTargetOf; rewrite H; now left.
    - now rewrite (heartbeatTargetOf_member data h Hh). }
  split; [intros v; apply trimmedOr_value|].
  split; [apply trimmedOr_fallback|].
  split; [intros v; apply trimmedOr_value|].
  split; [apply trimmedOr_fallback|].
  split; [reflexivity|]; split; [reflexivity|]; split; [reflexivity|].
  intros h Hh Hlast; unfold EditAgentPage.targetSelector; cbn.
  rewrite (heartbeatTargetOf_member data h Hh), Hlast; split; reflexivity.
Qed.

Lemma loadAgent_seeds_form_witness :
  let hb :=
    EditAgentPage.Agent.mkHeartbeat (Some (str "30m")) (Some (str "last")) in
  let data :=
    EditAgentPage.Agent.mk (str "a1") (str "Deploy bot") (Some (str "b1"))
      (Some hb) (Some (str "   ")) (Some (str " calm ")) in
  let st' :=
    finalState
      (run (EditAgentPage.loadAgent (str "http://localhost:8000")
              (str "identity") (str "soul")
              {| getToken := Fulfilled (Some (str "abc123"));
                 isSignedIn := Some true |}
              (Some (EditAgentPage.One (str "a1")))
              (Fulfilled {| ok := true; json := Fulfilled data |}))
           (EditAgentPage.initial (str "identity") (str "soul"))) in
  EditAgentPage.name st' = str "Deploy bot"
  /\ EditAgentPage.boardId st' = str "b1"
  /\ EditAgentPage.heartbeatEvery st' = str "30m"
  /\ EditAgentPage.heartbeatTarget st' = str "last"
  /\ EditAgentPage.identityTemplate st' = str "identity"
  /\ EditAgentPage.soulTemplate st' = str "calm"
  /\ EditAgentPage.targetSelector st'
     = Some {| value := str "last"; label := str "Last channel" |}.
Proof.
  intros hb data st'.
  pose proof
    (loadAgent_seeds_form (str "http://localhost:8000")
       (str "identity") (str "soul")
       {| getToken := Fulfilled (Some (str "abc123"));
          isSignedIn := Some true |}
       (Some (EditAgentPage.One (str "a1")))
       (Fulfilled {| ok := true; json := Fulfilled data |})
       (EditAgentPage.initial (str "identity") (str "soul"))
       (Some (str "abc123")) data eq_refl eq_refl eq_refl eq_refl) as H.
  cbv zeta in H.
  destruct H as [_ [_ [Hname [Hboard [_ [Hevery [_ [Htarget [_
                   [_ [Hid [Hsoul [_ [_ [_ [_ Hlast]]]]]]]]]]]]]]]].
  split; [exact Hname|].
  split; [apply (Hboard (str "b1")); [reflexivity|vm_compute; discriminate]|].
  split; [apply (Hevery hb (str "30m"));
          [reflexivity|reflexivity|vm_compute; discriminate]|].
  split; [apply (Htarget hb (str "last"));
          [reflexivity|reflexivity|vm_compute; discriminate]|].
  split; [apply Hid; right; exists (str "   "); split; reflexivity|].
  split; [apply (Hsoul (str " calm ")); reflexivity|].
  apply (Hlast hb); reflexivity.
Defined.

(** ** The Authorization header *)

(** The value of the header for a settled token. *)
Lemma authorization_value (token : option jsstring) :
  (forall t, token = Some t -> t <> [] ->
             (if truthyOpt token then str "Bearer " ++ splice token else [])
             = str "Bearer " ++ t)
  /\ (token = None \/ token = Some [] ->
      (if truthyOpt token then str "Bearer " ++ splice token else []) = []).
Proof.
  split.
  - intros t -> Hne; cbn; apply truthy_true_iff in Hne; now rewrite Hne.
  - intros [-> | ->]; reflexivity.
Qed.

(** C8, as stated, fails when the token provider returns [null]: the POST of
    the creation form then carries an empty Authorization header, which is
    [Bearer <token>] for no token. *)
Lemma requests_authorization_counterexample :
  let st :=
    NewAgentPage.setBoardId (str "b1")
      (NewAgentPage.setName (str "Deploy bot")
         (NewAgentPage.initial (str "identity") (str "soul"))) in
  exists r,
    requests
      (trace (run (NewAgentPage.handleSubmit (str "http://localhost:8000")
                     {| getToken := Fulfilled None; isSignedIn := Some true |}
                     (Rejected OtherValue)) st))
    = [r]
    /\ header "Authorization" r = Some []
    /\ forall t, header "Authorization" r <> Some (str "Bearer " ++ t).
Proof.
  eexists; split; [vm_compute; reflexivity|].
  split; [reflexivity|].
  intros t; vm_compute; discriminate.
Qed.

(** C8 (amended). Every request the two agent views issue goes to one of the
    four endpoints, after the token provider has resolved, and carries an
    Authorization header: [Bearer <token>] when the provider's value is a
    string that is not empty, the empty string when it is [null] or empty. *)
Theorem requests_authorization
        (apiBase : jsstring) (auth : Auth)
        (agentIdParam : option EditAgentPage.param) (r : Request) :
  issues apiBase auth agentIdParam r ->
  exists token,
    getToken auth = Fulfilled token
    /\ endpoint apiBase r
    /\ (forall t, token = Some t -> t <> [] ->
                  header "Authorization" r = Some (str "Bearer " ++ t))
    /\ (token = None \/ token = Some [] ->
        header "Authorization" r = Some []).
Proof.
  intros Hissued.
  assert (Hgoal : exists token,
    getToken auth = Fulfilled token
    /\ endpoint apiBase r
    /\ header "Authorization" r
       = Some (if truthyOpt token then str "Bearer " ++ splice token else [])).
  { destruct Hissued as [net st r H | net st r H | net st r H
                        | d1 d2 net st r H | T net st r H].
    - apply new_loadBoards_requests in H as [token [Ht ->]].
      exists token; repeat split; [assumption|left; split; reflexivity].
    - apply new_handleSubmit_requests in H as [token [Ht ->]].
      exists token; repeat split; [assumption|].
      right; right; left; split; reflexivity.
    - apply edit_loadBoards_requests in H as [token [Ht ->]].
      exists token; repeat split; [assumption|left; split; reflexivity].
    - apply edit_loadAgent_requests in H as [token [Ht [Hid ->]]].
      exists token; repeat split; [assumption|].
      right; left; exists (splice (EditAgentPage.agentId agentIdParam)).
      split; reflexivity.
    - apply edit_handleSubmit_requests in H as [token [Ht [Hid ->]]].
      exists token; repeat split; [assumption|].
      right; right; right.
      exists (splice (EditAgentPage.agentId agentIdParam)).
      split; reflexivity. }
  destruct Hgoal as [token [Ht [Hend Hhdr]]].
  exists token; split; [assumption|]; split; [assumption|].
  rewrite Hhdr; split.
  - intros t H1 H2; f_equal; now apply authorization_value.
  - intros H; f_equal; now apply authorization_value.
Qed.

Lemma requests_authorization_witness :
  let auth := {| getToken := Fulfilled (Some (str "abc123"));
                 isSignedIn := Some true |} in
  let st :=
    NewAgentPage.setBoardId (str "b1")
      (NewAgentPage.setName (str "Deploy bot")
         (NewAgentPage.initial (str "identity") (str "soul"))) in
  header "Authorization"
         (NewAgentPage.createRequest (str "http://localhost:8000")
                                     (Some (str "abc123")) st)
  = Some (str "Bearer abc123").
Proof.
  intros auth st.
  destruct (requests_authorization (str "http://localhost:8000") auth None
              (NewAgentPage.createRequest (str "http://localhost:8000")
                                          (Some (str "abc123")) st))
    as [token [Ht [_ [Hbearer _]]]].
  - apply (issues_new_handleSubmit _ _ _ (Rejected OtherValue) st).
    vm_compute; left; reflexivity.
  - injection Ht as <-.
    apply (Hbearer (str "abc123")); [reflexivity|vm_compute; discriminate].
Defined.

(** ** Signed-out handlers *)

(** C9. While the user is not signed in, each of the five handlers (loading
    the boards, loading the agent, submitting either form) returns at once:
    it issues no request and changes no component state. *)
Theorem signed_out_handlers_noop
        (apiBase DEFAULT_IDENTITY_TEMPLATE DEFAULT_SOUL_TEMPLATE : jsstring)
        (auth : Auth) (agentIdParam : option EditAgentPage.param) :
  truthyFlag (isSignedIn auth) = false ->
  (forall net st, noop (run (NewAgentPage.loadBoards apiBase auth net) st) st)
  /\ (forall net st,
         noop (run (NewAgentPage.handleSubmit apiBase auth net) st) st)
  /\ (forall net st, noop (run (EditAgentPage.loadBoards apiBase auth net) st) st)
  /\ (forall net st,
         noop (run (EditAgentPage.loadAgent apiBase DEFAULT_IDENTITY_TEMPLATE
                      DEFAULT_SOUL_TEMPLATE auth agentIdParam net) st) st)
  /\ (forall T (net : awaited (Response T)) st,
         noop (run (EditAgentPage.handleSubmit apiBase auth agentIdParam net) st)
              st).
Proof.
  intros Hs; unfold noop.
  split; [|split; [|split; [|split]]]; intros.
  - now rewrite new_loadBoards_signed_out.
  - now rewrite new_handleSubmit_signed_out.
  - now rewrite edit_loadBoards_signed_out.
  - now rewrite edit_loadAgent_signed_out.
  - now rewrite edit_handleSubmit_signed_out.
Qed.

Lemma signed_out_handlers_noop_witness :
  let st :=
    NewAgentPage.setBoardId (str "b1")
      (NewAgentPage.setName (str "Deploy bot")
         (NewAgentPage.initial (str "identity") (str "soul"))) in
  noop (run (NewAgentPage.handleSubmit (str "http://localhost:8000")
               {| getToken := Fulfilled (Some (str "abc123"));
                  isSignedIn := None |}
               (Rejected OtherValue)) st) st.
Proof.
  intros st.
  apply (signed_out_handlers_noop (str "http://localhost:8000")
           (str "identity") (str "soul")
           {| getToken := Fulfilled (Some (str "abc123")); isSignedIn := None |}
           None eq_refl).
Defined.

(** ** Templates in the request body *)

(** C10. Every request a submission of either form issues has a body whose
    identity and soul templates are never the empty string: each is [null]
    or the trimmed field, which is then not empty. *)
Theorem submit_templates_never_empty
        (apiBase : jsstring) (auth : Auth)
        (agentIdParam : option EditAgentPage.param) :
  (forall net st r,
      In r (requests
              (trace (run (NewAgentPage.handleSubmit apiBase auth net) st))) ->
      exists payload,
        body r = Some payload
        /\ templateOf (NewAgentPage.identityTemplate st)
                      (Payload.identity_template payload)
        /\ templateOf (NewAgentPage.soulTemplate st)
                      (Payload.soul_template payload))
  /\ (forall T (net : awaited (Response T)) st r,
         In r (requests
                 (trace (run (EditAgentPage.handleSubmit apiBase auth
                                agentIdParam net) st))) ->
         exists payload,
           body r = Some payload
           /\ templateOf (EditAgentPage.identityTemplate st)
                         (Payload.identity_template payload)
           /\ templateOf (EditAgentPage.soulTemplate st)
                         (Payload.soul_template payload)).
Proof.
  split.
  - intros net st r H.
    apply new_handleSubmit_requests in H as [token [_ ->]].
    eexists; split; [reflexivity|]; split; apply orNull_templateOf.
  - intros T net st r H.
    apply edit_handleSubmit_requests in H as [token [_ [_ ->]]].
    eexists; split; [reflexivity|]; split; apply orNull_templateOf.
Qed.

Lemma submit_templates_never_empty_witness :
  let st :=
    NewAgentPage.setBoardId (str "b1")
      (NewAgentPage.setIdentityTemplate (str "   ")
         (NewAgentPage.setName (str "Deploy bot")
            (NewAgentPage.initial (str "identity") (str " soul ")))) in
  exists payload,
    body (NewAgentPage.createRequest (str "http://localhost:8000")
                                     (Some (str "abc123")) st)
    = Some payload
    /\ templateOf (NewAgentPage.identityTemplate st)
                  (Payload.identity_template payload)
    /\ templateOf (NewAgentPage.soulTemplate st)
                  (Payload.soul_template payload).
Proof.
  intros st.
  apply (proj1 (submit_templates_never_empty (str "http://localhost:8000")
                  {| getToken := Fulfilled (Some (str "abc123"));
                     isSignedIn := Some true |} None)
               (Rejected OtherValue) st).
  vm_compute; left; reflexivity.
Defined.

(** * Further properties of the views *)

(** ** The login view and the provider together *)

Lemma trimStart_unchanged (s : jsstring) c r :
  s = c :: r -> isWhiteSpace c = false -> trimStart s = s.
Proof. intros -> Hc; simpl; now rewrite Hc. Qed.

Lemma trimStart_idempotent (s : jsstring) : trimStart (trimStart s) = trimStart s.
Proof.
  destruct (trimStart s) as [|c r] eqn:E; [reflexivity|].
  eapply trimStart_unchanged; [reflexivity|].
  now apply trimStart_head in E.
Qed.

(** Trimming twice is trimming once. *)
Lemma trim_idempotent (s : jsstring) : trim (trim s) = trim s.
Proof.
  destruct (trim s) as [|c r] eqn:E; [reflexivity|].
  pose proof (trim_first s c r E) as Hc.
  rewrite <- E.
  unfold trim at 1, trimEnd at 1.
  rewrite (trimStart_unchanged (trim s) c r E Hc).
  unfold trim, trimEnd.
  now rewrite rev_involutive, trimStart_idempotent.
Qed.

Section LoginAndProvider.
Import LocalAuthLogin.

Lemma login_submit_store (w : World) :
  store (finalState (run handleSubmit w))
  = if blank (token (ui w)) then store w else Some (trim (token (ui w))).
Proof.
  unfold handleSubmit; unfold run; cbn.
  unfold mbind, emit; cbn.
  rewrite truthy_trim_blank.
  destruct (blank (token (ui w))); reflexivity.
Qed.

(** After a submission the login view accepts, a provider in local-auth mode
    that reads the resulting store (as it does after the reload) renders the
    children; after one it rejects from an empty store, the login view. *)
Theorem login_then_provider
        (isLikelyValidClerkPublishableKey : option jsstring -> bool)
        (C : Type) (w : World) (env : AuthProvider.Env) (children : C) :
  AuthProvider.isLocalAuthMode env = true ->
  AuthProvider.store env = store (finalState (run handleSubmit w)) ->
  (trim (token (ui w)) <> [] ->
   AuthProvider.AuthProvider isLikelyValidClerkPublishableKey env children
   = AuthProvider.Fragment children)
  /\ (blank (token (ui w)) = true -> store w = None ->
      AuthProvider.AuthProvider isLikelyValidClerkPublishableKey env children
      = AuthProvider.LocalAuthLoginView).
Proof.
  intros Hmode Hstore; unfold AuthProvider.AuthProvider.
  rewrite Hmode, Hstore, login_submit_store; split.
  - intros Hne.
    destruct (blank (token (ui w))) eqn:Hb.
    + apply trim_nil_iff in Hb; contradiction.
    + cbn; apply truthy_true_iff in Hne; now rewrite Hne.
  - intros -> ->; reflexivity.
Qed.

(** What a submission writes to the store is the input without a blank
    prefix and a blank suffix: not empty, with no white space at either end,
    and unchanged by another [trim]. *)
Theorem login_stored_token_shape (w : World) (t : jsstring) :
  store (finalState (run handleSubmit w)) = Some t ->
  store w <> Some t ->
  (exists pre post,
      token (ui w) = pre ++ t ++ post /\ blank pre = true /\ blank post = true)
  /\ trimmedToken t
  /\ (forall c r, t = c :: r -> isWhiteSpace c = false)
  /\ (forall r c, t = r ++ [c] -> isWhiteSpace c = false).
Proof.
  rewrite login_submit_store.
  destruct (blank (token (ui w))) eqn:Hb; [congruence|].
  intros [= <-] _.
  split; [apply trim_split|].
  split; [split; [|apply trim_idempotent]|].
  - intros H; apply trim_nil_iff in H; congruence.
  - split; [apply trim_first|apply trim_last].
Qed.

(** Whatever is typed and submitted, and however often, the store stays
    empty or holds a trimmed token. *)
Theorem login_store_invariant (inputs : list jsstring) (w : World) :
  storeOk (store w) -> storeOk (store (submitAll inputs w)).
Proof.
  revert w; induction inputs as [|input rest IH]; intros w Hok; [exact Hok|].
  simpl; apply IH.
  rewrite login_submit_store.
  change (token (ui (setToken input w))) with input.
  change (store (setToken input w)) with (store w).
  destruct (blank input) eqn:Hb; [exact Hok|].
  unfold storeOk, trimmedToken, LocalAuth.getLocalAuthToken.
  split; [|apply trim_idempotent].
  intros H; apply trim_nil_iff in H; congruence.
Qed.

End LoginAndProvider.

Lemma login_then_provider_witness :
  AuthProvider.AuthProvider truthyOpt
    (AuthProvider.mkEnv true (Some (str "abc123")) None None) tt
  = AuthProvider.Fragment tt.
Proof.
  apply (login_then_provider truthyOpt unit
           (LocalAuthLogin.mkWorld
              (LocalAuthLogin.mkState (str " abc123 ") None) None)
           (AuthProvider.mkEnv true (Some (str "abc123")) None None) tt
           eq_refl eq_refl).
  vm_compute; discriminate.
Defined.

Lemma login_stored_token_shape_witness :
  trimmedToken (str "abc123").
Proof.
  apply (login_stored_token_shape
           (LocalAuthLogin.mkWorld
              (LocalAuthLogin.mkState (str " abc123 ") None) None)
           (str "abc123")).
  - reflexivity.
  - discriminate.
Defined.

Lemma login_store_invariant_witness :
  storeOk
    (LocalAuthLogin.store
       (submitAll [str "  "; str " abc123 "; str ""]
          (LocalAuthLogin.mkWorld LocalAuthLogin.initial None))).
Proof.
  apply (login_store_invariant [str "  "; str " abc123 "; str ""]
           (LocalAuthLogin.mkWorld LocalAuthLogin.initial None)).
  exact I.
Defined.

(** ** The provider's three outcomes *)

(** The provider shows the login view only in local-auth mode without a
    token, wraps in the hosted provider only outside local-auth mode with a
    plausible key (passing that key, and the sign-out URL or ["/"] when it
    is unset), and otherwise hands the children through untouched. *)
Theorem AuthProvider_outcomes
        (isLikelyValidClerkPublishableKey : option jsstring -> bool)
        (C : Type) (env : AuthProvider.Env) (children : C) :
  let out :=
    AuthProvider.AuthProvider isLikelyValidClerkPublishableKey env children in
  (out = AuthProvider.LocalAuthLoginView ->
   AuthProvider.isLocalAuthMode env = true
   /\ truthyOpt (LocalAuth.getLocalAuthToken (AuthProvider.store env)) = false)
  /\ (forall c, out = AuthProvider.Fragment c -> c = children)
  /\ (forall key url c,
         out = AuthProvider.ClerkProvider key url c ->
         AuthProvider.isLocalAuthMode env = false
         /\ key = AuthProvider.NEXT_PUBLIC_CLERK_PUBLISHABLE_KEY env
         /\ isLikelyValidClerkPublishableKey key = true
         /\ c = children
         /\ (AuthProvider.NEXT_PUBLIC_CLERK_AFTER_SIGN_OUT_URL env = None ->
             url = str "/")
         /\ (forall u,
                AuthProvider.NEXT_PUBLIC_CLERK_AFTER_SIGN_OUT_URL env = Some u ->
                url = u)).
Proof.
  unfold AuthProvider.AuthProvider.
  destruct (AuthProvider.isLocalAuthMode env).
  - destruct (truthyOpt (LocalAuth.getLocalAuthToken (AuthProvider.store env)));
      cbn; repeat split; try discriminate; congruence.
  - destruct (isLikelyValidClerkPublishableKey
                (AuthProvider.NEXT_PUBLIC_CLERK_PUBLISHABLE_KEY env)) eqn:Hk;
      cbn; split; [discriminate| |discriminate|];
      (split; [congruence|]); try discriminate.
    intros key url c [= <- <- <-].
    split; [reflexivity|]; split; [reflexivity|]; split; [assumption|].
    split; [reflexivity|]; split.
    + intros ->; reflexivity.
    + intros u ->; reflexivity.
Qed.

Lemma AuthProvider_outcomes_witness :
  AuthProvider.isLocalAuthMode
    (AuthProvider.mkEnv false None (Some (str "pk_test_abc")) (Some [])) = false.
Proof.
  pose proof
    (AuthProvider_outcomes truthyOpt unit
       (AuthProvider.mkEnv false None (Some (str "pk_test_abc")) (Some []))
       tt) as H.
  cbv zeta in H; destruct H as [_ [_ H]].
  apply (H (Some (str "pk_test_abc")) [] tt); reflexivity.
Defined.

(** ** Complete runs of the agent form handlers *)

(** Each handler in direct style: its result, final state and actions for
    every way [getToken()], [fetch] and [response.json()] can settle. *)
Lemma new_handleSubmit_run apiBase auth net st :
  run (NewAgentPage.handleSubmit apiBase auth net) st
  = if negb (truthyFlag (isSignedIn auth)) then (Normal tt, st, [PreventDefault])
    else if blank (NewAgentPage.name st) then
      (Normal tt,
       NewAgentPage.setError (Some (str "Agent name is required.")) st,
       [PreventDefault])
    else if negb (truthy (NewAgentPage.boardId st)) then
      (Normal tt,
       NewAgentPage.setError
         (Some (str "Select a board before creating an agent.")) st,
       [PreventDefault])
    else
      match getToken auth with
      | Rejected t =>
          (Normal tt,
           NewAgentPage.setIsLoading false
             (NewAgentPage.setError (Some (errorMessage t)) st),
           [PreventDefault])
      | Fulfilled token =>
          let sent :=
            [PreventDefault; Fetch (NewAgentPage.createRequest apiBase token st)] in
          match net with
          | Rejected t =>
              (Normal tt,
               NewAgentPage.setIsLoading false
                 (NewAgentPage.setError (Some (errorMessage t)) st),
               sent)
          | Fulfilled {| ok := false |} =>
              (Normal tt,
               NewAgentPage.setIsLoading false
                 (NewAgentPage.setError (Some (str "Unable to create agent."))
                                        st),
               sent)
          | Fulfilled {| ok := true; json := Rejected t |} =>
              (Normal tt,
               NewAgentPage.setIsLoading false
                 (NewAgentPage.setError (Some (errorMessage t)) st),
               sent)
          | Fulfilled {| ok := true; json := Fulfilled created |} =>
              (Normal tt,
               NewAgentPage.setIsLoading false (NewAgentPage.setError None st),
               sent ++ [RouterPush (str "/agents/"
                                      ++ NewAgentPage.Agent.id created)])
          end
      end.
Proof.
  unfold NewAgentPage.handleSubmit; unfold_monad.
  rewrite truthy_trim_blank.
  destruct (truthyFlag (isSignedIn auth)); cbn; [|reflexivity].
  destruct (blank (NewAgentPage.name st)); cbn; [reflexivity|].
  destruct (truthy (NewAgentPage.boardId st)); cbn; [|reflexivity].
  destruct (getToken auth) as [token|t]; cbn; [|reflexivity].
  destruct net as [[[] [created|t]]|t]; reflexivity.
Qed.

Lemma edit_handleSubmit_run {T} apiBase auth agentIdParam
      (net : awaited (Response T)) st :
  run (EditAgentPage.handleSubmit apiBase auth agentIdParam net) st
  = if negb (truthyFlag (isSignedIn auth))
       || negb (truthyOpt (EditAgentPage.agentId agentIdParam))
    then (Normal tt, st, [PreventDefault])
    else if blank (EditAgentPage.name st) then
      (Normal tt,
       EditAgentPage.setError (Some (str "Agent name is required.")) st,
       [PreventDefault])
    else if negb (truthy (EditAgentPage.boardId st)) then
      (Normal tt,
       EditAgentPage.setError (Some (str "Select a board before saving.")) st,
       [PreventDefault])
    else
      match getToken auth with
      | Rejected t =>
          (Normal tt,
           EditAgentPage.setIsLoading false
             (EditAgentPage.setError (Some (errorMessage t)) st),
           [PreventDefault])
      | Fulfilled token =>
          let sent :=
            [PreventDefault;
             Fetch (EditAgentPage.updateRequest apiBase agentIdParam token st)] in
          match net with
          | Rejected t =>
              (Normal tt,
               EditAgentPage.setIsLoading false
                 (EditAgentPage.setError (Some (errorMessage t)) st),
               sent)
          | Fulfilled {| ok := false |} =>
              (Normal tt,
               EditAgentPage.setIsLoading false
                 (EditAgentPage.setError (Some (str "Unable to update agent."))
                                         st),
               sent)
          | Fulfilled {| ok := true |} =>
              (Normal tt,
               EditAgentPage.setIsLoading false (EditAgentPage.setError None st),
               sent ++ [RouterPush
                          (str "/agents/"
                             ++ splice (EditAgentPage.agentId agentIdParam))])
          end
      end.
Proof.
  unfold EditAgentPage.handleSubmit; unfold_monad.
  rewrite truthy_trim_blank.
  destruct (truthyFlag (isSignedIn auth)); cbn; [|reflexivity].
  destruct (truthyOpt (EditAgentPage.agentId agentIdParam)); cbn; [|reflexivity].
  destruct (blank (EditAgentPage.name st)); cbn; [reflexivity|].
  destruct (truthy (EditAgentPage.boardId st)); cbn; [|reflexivity].
  destruct (getToken auth) as [token|t]; cbn; [|reflexivity].
  destruct net as [[[] js]|t]; reflexivity.
Qed.

Lemma new_loadBoards_run apiBase auth net st :
  run (NewAgentPage.loadBoards apiBase auth net) st
  = if negb (truthyFlag (isSignedIn auth)) then (Normal tt, st, [])
    else
      match getToken auth with
      | Rejected t =>
          (Normal tt, NewAgentPage.setError (Some (errorMessage t)) st, [])
      | Fulfilled token =>
          let sent := [Fetch (NewAgentPage.boardsRequest apiBase token)] in
          match net with
          | Rejected t =>
              (Normal tt, NewAgentPage.setError (Some (errorMessage t)) st, sent)
          | Fulfilled {| ok := false |} =>
              (Normal tt,
               NewAgentPage.setError (Some (str "Unable to load boards.")) st,
               sent)
          | Fulfilled {| ok := true; json := Rejected t |} =>
              (Normal tt, NewAgentPage.setError (Some (errorMessage t)) st, sent)
          | Fulfilled {| ok := true; json := Fulfilled data |} =>
              (Normal tt,
               match data with
               | first :: _ =>
                   if truthy (NewAgentPage.boardId st)
                   then NewAgentPage.setBoards data st
                   else NewAgentPage.setBoardId (Board.id first)
                          (NewAgentPage.setBoards data st)
               | [] => NewAgentPage.setBoards data st
               end,
               sent)
          end
      end.
Proof.
  unfold NewAgentPage.loadBoards; unfold_monad.
  destruct (truthyFlag (isSignedIn auth)); cbn; [|reflexivity].
  destruct (getToken auth) as [token|t]; cbn; [|reflexivity].
  destruct net as [[[] [[|first data]|t]]|t]; cbn;
    try destruct (truthy (NewAgentPage.boardId st)); reflexivity.
Qed.

Lemma edit_loadBoards_run apiBase auth net st :
  run (EditAgentPage.loadBoards apiBase auth net) st
  = if negb (truthyFlag (isSignedIn auth)) then (Normal tt, st, [])
    else
      match getToken auth with
      | Rejected t =>
          (Normal tt, EditAgentPage.setError (Some (errorMessage t)) st, [])
      | Fulfilled token =>
          let sent := [Fetch (EditAgentPage.boardsRequest apiBase token)] in
          match net with
          | Rejected t =>
              (Normal tt, EditAgentPage.setError (Some (errorMessage t)) st, sent)
          | Fulfilled {| ok := false |} =>
              (Normal tt,
               EditAgentPage.setError (Some (str "Unable to load boards.")) st,
               sent)
          | Fulfilled {| ok := true; json := Rejected t |} =>
              (Normal tt, EditAgentPage.setError (Some (errorMessage t)) st, sent)
          | Fulfilled {| ok := true; json := Fulfilled data |} =>
              (Normal tt, EditAgentPage.setBoards data st, sent)
          end
      end.
Proof.
  unfold EditAgentPage.loadBoards; unfold_monad.
  destruct (truthyFlag (isSignedIn auth)); cbn; [|reflexivity].
  destruct (getToken auth) as [token|t]; cbn; [|reflexivity].
  destruct net as [[[] [data|t]]|t]; reflexivity.
Qed.

Lemma edit_loadAgent_run apiBase dId dSoul auth agentIdParam net st :
  run (EditAgentPage.loadAgent apiBase dId dSoul auth agentIdParam net) st
  = if negb (truthyFlag (isSignedIn auth))
       || negb (truthyOpt (EditAgentPage.agentId agentIdParam))
    then (Normal tt, st, [])
    else
      match getToken auth with
      | Rejected t =>
          (Normal tt,
           EditAgentPage.setIsLoading false
             (EditAgentPage.setError (Some (errorMessage t)) st),
           [])
      | Fulfilled token =>
          let sent :=
            [Fetch (EditAgentPage.agentRequest apiBase agentIdParam token)] in
          match net with
          | Rejected t =>
              (Normal tt,
               EditAgentPage.setIsLoading false
                 (EditAgentPage.setError (Some (errorMessage t)) st),
               sent)
          | Fulfilled {| ok := false |} =>
              (Normal tt,
               EditAgentPage.setIsLoading false
                 (EditAgentPage.setError (Some (str "Unable to load agent."))
                                         st),
               sent)
          | Fulfilled {| ok := true; json := Rejected t |} =>
              (Normal tt,
               EditAgentPage.setIsLoading false
                 (EditAgentPage.setError (Some (errorMessage t)) st),
               sent)
          | Fulfilled {| ok := true; json := Fulfilled data |} =>
              (Normal tt,
               EditAgentPage.mkState
                 (Some data) (EditAgentPage.Agent.name data)
                 (EditAgentPage.boards st)
                 (if truthyOpt (EditAgentPage.Agent.board_id data)
                  then splice (EditAgentPage.Agent.board_id data)
                  else EditAgentPage.boardId st)
                 (if truthyOpt (EditAgentPage.heartbeatEveryOf data)
                  then splice (EditAgentPage.heartbeatEveryOf data)
                  else EditAgentPage.heartbeatEvery st)
                 (if truthyOpt (EditAgentPage.heartbeatTargetOf data)
                  then splice (EditAgentPage.heartbeatTargetOf data)
                  else EditAgentPage.heartbeatTarget st)
                 (EditAgentPage.trimmedOr
                    (EditAgentPage.Agent.identity_template data) dId)
                 (EditAgentPage.trimmedOr
                    (EditAgentPage.Agent.soul_template data) dSoul)
                 false None,
               sent)
          end
      end.
Proof.
  unfold EditAgentPage.loadAgent; unfold_monad.
  destruct (truthyFlag (isSignedIn auth)); cbn; [|reflexivity].
  destruct (truthyOpt (EditAgentPage.agentId agentIdParam)); cbn; [|reflexivity].
  destruct (getToken auth) as [token|t]; cbn; [|reflexivity].
  destruct net as [[[] [data|t]]|t]; cbn; try reflexivity.
  destruct (truthyOpt (EditAgentPage.Agent.board_id data)),
           (truthyOpt (EditAgentPage.heartbeatEveryOf data)),
           (truthyOpt (EditAgentPage.heartbeatTargetOf data)); reflexivity.
Qed.

Ltac split_run :=
  repeat match goal with
         | |- context [if ?b then _ else _] => destruct b
         | |- context [match ?x with _ => _ end] => destruct x
         end;
  cbn.

Ltac unfold_setters :=
  unfold NewAgentPage.setIsLoading, NewAgentPage.setError,
    NewAgentPage.setBoards, NewAgentPage.setBoardId, NewAgentPage.setName,
    EditAgentPage.setIsLoading, EditAgentPage.setError,
    EditAgentPage.setBoards, EditAgentPage.setBoardId, EditAgentPage.setName;
  cbn.

(** ** No handler fails, none sends twice *)

(** Whatever the token provider and the network do, each of the five
    handlers completes normally: every rejection and every thrown error is
    caught inside the handler. *)
Theorem handlers_complete_normally
        (apiBase dId dSoul : jsstring) (auth : Auth)
        (agentIdParam : option EditAgentPage.param) :
  (forall net st,
      result (run (NewAgentPage.loadBoards apiBase auth net) st) = Normal tt)
  /\ (forall net st,
         result (run (NewAgentPage.handleSubmit apiBase auth net) st)
         = Normal tt)
  /\ (forall net st,
         result (run (EditAgentPage.loadBoards apiBase auth net) st) = Normal tt)
  /\ (forall net st,
         result (run (EditAgentPage.loadAgent apiBase dId dSoul auth
                        agentIdParam net) st) = Normal tt)
  /\ (forall T (net : awaited (Response T)) st,
         result (run (EditAgentPage.handleSubmit apiBase auth agentIdParam net)
                     st) = Normal tt).
Proof.
  split; [|split; [|split; [|split]]]; intros.
  - rewrite new_loadBoards_run; split_run; reflexivity.
  - rewrite new_handleSubmit_run; split_run; reflexivity.
  - rewrite edit_loadBoards_run; split_run; reflexivity.
  - rewrite edit_loadAgent_run; split_run; reflexivity.
  - rewrite edit_handleSubmit_run; split_run; reflexivity.
Qed.

(** A run of a handler issues at most one request, and navigates at most
    once and only after its request was issued; the three loaders never
    navigate. *)
Theorem handlers_single_request
        (apiBase dId dSoul : jsstring) (auth : Auth)
        (agentIdParam : option EditAgentPage.param) :
  (forall net st,
      let tr := trace (run (NewAgentPage.loadBoards apiBase auth net) st) in
      (List.length (requests tr) <= 1)%nat /\ navigations tr = [])
  /\ (forall net st,
         let tr := trace (run (NewAgentPage.handleSubmit apiBase auth net) st) in
         (List.length (navigations tr) <= List.length (requests tr) <= 1)%nat)
  /\ (forall net st,
         let tr := trace (run (EditAgentPage.loadBoards apiBase auth net) st) in
         (List.length (requests tr) <= 1)%nat /\ navigations tr = [])
  /\ (forall net st,
         let tr := trace (run (EditAgentPage.loadAgent apiBase dId dSoul auth
                                 agentIdParam net) st) in
         (List.length (requests tr) <= 1)%nat /\ navigations tr = [])
  /\ (forall T (net : awaited (Response T)) st,
         let tr := trace (run (EditAgentPage.handleSubmit apiBase auth
                                 agentIdParam net) st) in
         (List.length (navigations tr) <= List.length (requests tr) <= 1)%nat).
Proof.
  split; [|split; [|split; [|split]]]; intros.
  - subst tr; rewrite new_loadBoards_run; split_run; auto.
  - subst tr; rewrite new_handleSubmit_run; split_run; auto.
  - subst tr; rewrite edit_loadBoards_run; split_run; auto.
  - subst tr; rewrite edit_loadAgent_run; split_run; auto.
  - subst tr; rewrite edit_handleSubmit_run; split_run; auto.
Qed.

(** ** What a submission leaves alone *)

(** A submission of either form, whatever its outcome, changes nothing the
    user entered (name, board, interval, target, templates) nor the loaded
    boards or agent: at most the loading flag and the error. *)
Theorem submit_preserves_inputs
        (apiBase : jsstring) (auth : Auth)
        (agentIdParam : option EditAgentPage.param) :
  (forall net st,
      exists loading err,
        finalState (run (NewAgentPage.handleSubmit apiBase auth net) st)
        = NewAgentPage.setIsLoading loading (NewAgentPage.setError err st))
  /\ (forall T (net : awaited (Response T)) st,
         exists loading err,
           finalState (run (EditAgentPage.handleSubmit apiBase auth
                              agentIdParam net) st)
           = EditAgentPage.setIsLoading loading (EditAgentPage.setError err st)).
Proof.
  split; intros.
  - rewrite new_handleSubmit_run; destruct st; split_run;
      do 2 eexists; unfold_setters; reflexivity.
  - rewrite edit_handleSubmit_run; destruct st; split_run;
      do 2 eexists; unfold_setters; reflexivity.
Qed.

(** ** How a valid submission ends *)

(** A submission of the creation form that passes validation (signed in,
    name and board given) always ends with the loading flag cleared, and in
    exactly one of two ways: the POST was answered OK with a readable body,
    the error is cleared and the view navigates to the created agent; or an
    error is stored and the view stays. A response that is not OK stores
    "Unable to create agent."; a rejection stores the message of the thrown
    error, or "Something went wrong." when it is not an [Error]. *)
Theorem create_submit_outcome
        (apiBase : jsstring) (auth : Auth)
        (net : awaited (Response NewAgentPage.Agent.t))
        (st : NewAgentPage.State) :
  truthyFlag (isSignedIn auth) = true ->
  trim (NewAgentPage.name st) <> [] ->
  NewAgentPage.boardId st <> [] ->
  let out := run (NewAgentPage.handleSubmit apiBase auth net) st in
  NewAgentPage.isLoading (finalState out) = false
  /\ ((exists token created,
          getToken auth = Fulfilled token
          /\ net = Fulfilled {| ok := true; json := Fulfilled created |}
          /\ NewAgentPage.error (finalState out) = None
          /\ navigations (trace out)
             = [str "/agents/" ++ NewAgentPage.Agent.id created])
      \/ (exists message,
             NewAgentPage.error (finalState out) = Some message
             /\ navigations (trace out) = []))
  /\ (forall token body,
         getToken auth = Fulfilled token ->
         net = Fulfilled {| ok := false; json := body |} ->
         NewAgentPage.error (finalState out)
         = Some (str "Unable to create agent."))
  /\ (forall t,
         getToken auth = Rejected t
         \/ (exists token,
                getToken auth = Fulfilled token
                /\ (net = Rejected t
                    \/ net = Fulfilled {| ok := true; json := Rejected t |})) ->
         NewAgentPage.error (finalState out) = Some (errorMessage t))
  /\ errorMessage OtherValue = str "Something went wrong.".
Proof.
  intros Hs Hn Hb out; subst out.
  rewrite new_handleSubmit_run, Hs.
  assert (Hblank : blank (NewAgentPage.name st) = false).
  { destruct (blank (NewAgentPage.name st)) eqn:E; [|reflexivity].
    apply trim_nil_iff in E; contradiction. }
  apply truthy_true_iff in Hb; rewrite Hblank, Hb; cbn.
  destruct (getToken auth) as [token|t]; cbn.
  - destruct net as [[[] body]|t]; [destruct body as [created|t]| |]; cbn.
    + split; [reflexivity|]; split; [left; eauto 6|].
      split; [intros ? ? _ [=]|]; split; [|reflexivity].
      intros t [[=] | [tk [_ [[=] | [=]]]]].
    + split; [reflexivity|]; split; [right; eauto|].
      split; [intros ? ? _ [=]|]; split; [|reflexivity].
      intros t' [[=] | [tk [_ [[=] | [= <-]]]]]; reflexivity.
    + split; [reflexivity|]; split; [right; eauto|].
      split; [reflexivity|]; split; [|reflexivity].
      intros t' [[=] | [tk [_ [[=] | [=]]]]].
    + split; [reflexivity|]; split; [right; eauto|].
      split; [intros ? ? _ [=]|]; split; [|reflexivity].
      intros t' [[=] | [tk [_ [[= <-] | [=]]]]]; reflexivity.
  - split; [reflexivity|]; split; [right; eauto|].
    split; [intros ? ? [=]|]; split; [|reflexivity].
    intros t' [[= <-] | [tk [[=] _]]]; reflexivity.
Qed.

Lemma create_submit_outcome_witness :
  let st :=
    NewAgentPage.setBoardId (str "b1")
      (NewAgentPage.setName (str "Deploy bot")
         (NewAgentPage.initial (str "identity") (str "soul"))) in
  NewAgentPage.error
    (finalState
       (run (NewAgentPage.handleSubmit (str "http://localhost:8000")
               {| getToken := Fulfilled (Some (str "abc123"));
                  isSignedIn := Some true |}
               (Fulfilled {| ok := false; json := Rejected OtherValue |})) st))
  = Some (str "Unable to create agent.").
Proof.
  intros st.
  pose proof
    (create_submit_outcome (str "http://localhost:8000")
       {| getToken := Fulfilled (Some (str "abc123")); isSignedIn := Some true |}
       (Fulfilled {| ok := false; json := Rejected OtherValue |}) st eq_refl)
    as H.
  cbv zeta in H.
  destruct H as [_ [_ [H _]]].
  - vm_compute; discriminate.
  - vm_compute; discriminate.
  - apply (H (Some (str "abc123")) (Rejected OtherValue)); reflexivity.
Defined.

(** The same for the edit form, except that any OK answer to the PATCH
    counts: the body is not read, and the view navigates to the agent of the
    route. *)
Theorem edit_submit_outcome
        (apiBase : jsstring) (auth : Auth)
        (agentIdParam : option EditAgentPage.param)
        (T : Type) (net : awaited (Response T))
        (st : EditAgentPage.State) (id : jsstring) :
  truthyFlag (isSignedIn auth) = true ->
  EditAgentPage.agentId agentIdParam = Some id -> id <> [] ->
  trim (EditAgentPage.name st) <> [] ->
  EditAgentPage.boardId st <> [] ->
  let out := run (EditAgentPage.handleSubmit apiBase auth agentIdParam net) st in
  EditAgentPage.isLoading (finalState out) = false
  /\ ((exists token body,
          getToken auth = Fulfilled token
          /\ net = Fulfilled {| ok := true; json := body |}
          /\ EditAgentPage.error (finalState out) = None
          /\ navigations (trace out) = [str "/agents/" ++ id])
      \/ (exists message,
             EditAgentPage.error (finalState out) = Some message
             /\ navigations (trace out) = []))
  /\ (forall token body,
         getToken auth = Fulfilled token ->
         net = Fulfilled {| ok := false; json := body |} ->
         EditAgentPage.error (finalState out)
         = Some (str "Unable to update agent."))
  /\ (forall t,
         getToken auth = Rejected t
         \/ (exists token, getToken auth = Fulfilled token /\ net = Rejected t) ->
         EditAgentPage.error (finalState out) = Some (errorMessage t)).
Proof.
  intros Hs Hid Hne Hn Hb out; subst out.
  rewrite edit_handleSubmit_run, Hs, Hid.
  assert (Hblank : blank (EditAgentPage.name st) = false).
  { destruct (blank (EditAgentPage.name st)) eqn:E; [|reflexivity].
    apply trim_nil_iff in E; contradiction. }
  apply truthy_true_iff in Hb, Hne.
  rewrite Hblank, Hb; cbn; rewrite Hne; cbn.
  destruct (getToken auth) as [token|t]; cbn.
  - destruct net as [[[] body]|t]; cbn.
    + split; [reflexivity|]; split; [left; eauto 6|].
      split; [intros ? ? _ [=]|].
      intros t [[=] | [tk [_ [=]]]].
    + split; [reflexivity|]; split; [right; eauto|].
      split; [reflexivity|].
      intros t' [[=] | [tk [_ [=]]]].
    + split; [reflexivity|]; split; [right; eauto|].
      split; [intros ? ? _ [=]|].
      intros t' [[=] | [tk [_ [= <-]]]]; reflexivity.
  - split; [reflexivity|]; split; [right; eauto|].
    split; [intros ? ? [=]|].
    intros t' [[= <-] | [tk [[=] _]]]; reflexivity.
Qed.

Lemma edit_submit_outcome_witness :
  let st :=
    EditAgentPage.setBoardId (str "b1")
      (EditAgentPage.setName (str "Deploy bot")
         (EditAgentPage.initial (str "identity") (str "soul"))) in
  exists message,
    EditAgentPage.error
      (finalState
         (run (EditAgentPage.handleSubmit (str "http://localhost:8000")
                 {| getToken := Fulfilled (Some (str "abc123"));
                    isSignedIn := Some true |}
                 (Some (EditAgentPage.Many [str "a1"; str "a2"]))
                 (@Rejected (Response unit)
                            (ErrorObject (str "Failed to fetch")))) st))
    = Some message
    /\ message = str "Failed to fetch".
Proof.
  intros st.
  pose proof
    (edit_submit_outcome (str "http://localhost:8000")
       {| getToken := Fulfilled (Some (str "abc123")); isSignedIn := Some true |}
       (Some (EditAgentPage.Many [str "a1"; str "a2"]))
       unit (Rejected (ErrorObject (str "Failed to fetch"))) st (str "a1")
       eq_refl eq_refl) as H.
  cbv zeta in H.
  destruct H as [_ [_ [_ H]]].
  - vm_compute; discriminate.
  - vm_compute; discriminate.
  - vm_compute; discriminate.
  - eexists; split; [|reflexivity].
    apply (H (ErrorObject (str "Failed to fetch"))).
    right; exists (Some (str "abc123")); split; reflexivity.
Defined.

(** ** Loading the boards *)

(** While signed in, the board load of the creation form either succeeds
    (token resolved, OK answer, readable body): the list is stored, the error
    is left as it was, and the first board becomes the selection when there
    was none (a selection already made is kept, an empty list selects
    nothing); or it fails: the list and the selection are kept and an error
    is stored. Nothing else changes, the loading flag included. *)
Theorem new_loadBoards_outcome
        (apiBase : jsstring) (auth : Auth)
        (net : awaited (Response (list Board.t))) (st : NewAgentPage.State) :
  truthyFlag (isSignedIn auth) = true ->
  let st' := finalState (run (NewAgentPage.loadBoards apiBase auth net) st) in
  (exists token data,
      getToken auth = Fulfilled token
      /\ net = Fulfilled {| ok := true; json := Fulfilled data |}
      /\ (NewAgentPage.boardId st <> [] ->
          st' = NewAgentPage.setBoards data st)
      /\ (NewAgentPage.boardId st = [] -> data = [] ->
          st' = NewAgentPage.setBoards data st)
      /\ (NewAgentPage.boardId st = [] ->
          forall first rest, data = first :: rest ->
          st' = NewAgentPage.setBoardId (Board.id first)
                  (NewAgentPage.setBoards data st)))
  \/ (exists message, st' = NewAgentPage.setError (Some message) st).
Proof.
  intros Hs st'; subst st'.
  rewrite new_loadBoards_run, Hs; cbn.
  destruct (getToken auth) as [token|t]; cbn; [|right; eauto].
  destruct net as [[[] body]|t]; [destruct body as [data|t]| |]; cbn;
    try (right; eauto; fail).
  left; exists token, data; split; [reflexivity|]; split; [reflexivity|].
  destruct data as [|first rest]; cbn.
  - split; [reflexivity|]; split; [reflexivity|]; intros _ ? ? [=].
  - destruct (truthy (NewAgentPage.boardId st)) eqn:E.
    + apply truthy_true_iff in E.
      split; [reflexivity|]; split; [intros _ [=]|]; intros H; contradiction.
    + apply truthy_false_iff in E.
      split; [intros H; contradiction|]; split; [intros _ [=]|].
      intros _ f r [= <- <-]; reflexivity.
Qed.

Lemma new_loadBoards_outcome_witness :
  NewAgentPage.boardId
    (finalState
       (run (NewAgentPage.loadBoards (str "http://localhost:8000")
               {| getToken := Fulfilled None; isSignedIn := Some true |}
               (Fulfilled
                  {| ok := true;
                     json := Fulfilled
                               [Board.mk (str "b1") (str "Ops") (str "ops");
                                Board.mk (str "b2") (str "Dev") (str "dev")] |}))
            (NewAgentPage.initial (str "identity") (str "soul"))))
  = str "b1".
Proof.
  destruct (new_loadBoards_outcome (str "http://localhost:8000")
              {| getToken := Fulfilled None; isSignedIn := Some true |}
              (Fulfilled
                 {| ok := true;
                    json := Fulfilled
                              [Board.mk (str "b1") (str "Ops") (str "ops");
                               Board.mk (str "b2") (str "Dev") (str "dev")] |})
              (NewAgentPage.initial (str "identity") (str "soul")) eq_refl)
    as [[token [data [_ [Hnet [_ [_ H]]]]]] | [message H]].
  - injection Hnet as Hdata.
    rewrite (H eq_refl _ _ (eq_sym Hdata)); reflexivity.
  - vm_compute in H; discriminate.
Defined.

(** A board load that selected the first board lets a submission through:
    from a form without selection, after a load that returned a list whose
    first board has an id, submitting a name sends one POST for that board.
    After a load that returned no board, the same submission is stopped at
    validation: no request, "Select a board before creating an agent.". *)
Theorem loadBoards_then_submit
        (apiBase : jsstring) (auth : Auth) (token : option jsstring)
        (net : awaited (Response NewAgentPage.Agent.t))
        (st : NewAgentPage.State) (data : list Board.t) (name' : jsstring) :
  truthyFlag (isSignedIn auth) = true ->
  getToken auth = Fulfilled token ->
  NewAgentPage.boardId st = [] ->
  trim name' <> [] ->
  let loaded :=
    finalState
      (run (NewAgentPage.loadBoards apiBase auth
              (Fulfilled {| ok := true; json := Fulfilled data |})) st) in
  let out :=
    run (NewAgentPage.handleSubmit apiBase auth net)
        (NewAgentPage.setName name' loaded) in
  (forall first rest,
      data = first :: rest -> Board.id first <> [] ->
      exists req payload,
        requests (trace out) = [req]
        /\ method req = POST
        /\ body req = Some payload
        /\ Payload.board_id payload = Board.id first
        /\ Payload.name payload = trim name')
  /\ (data = [] ->
      requests (trace out) = []
      /\ NewAgentPage.error (finalState out)
         = Some (str "Select a board before creating an agent.")).
Proof.
  intros Hs Ht Hb Hn loaded out; subst out loaded.
  rewrite new_loadBoards_run, Hs, Ht; cbn.
  assert (Hblank : blank name' = false).
  { destruct (blank name') eqn:E; [|reflexivity].
    apply trim_nil_iff in E; contradiction. }
  unfold blank in Hblank.
  split.
  - intros first rest -> Hid.
    rewrite Hb; cbn.
    rewrite new_handleSubmit_run, Hs, Ht; unfold_setters.
    apply truthy_true_iff in Hid; rewrite Hblank, Hid; cbn.
    do 2 eexists; split.
    + destruct net as [[[] [created|t]]|t]; reflexivity.
    + repeat split.
  - intros ->; cbn.
    rewrite new_handleSubmit_run, Hs; unfold_setters.
    rewrite Hblank, Hb; cbn; split; reflexivity.
Qed.

Lemma loadBoards_then_submit_witness :
  let auth := {| getToken := Fulfilled (Some (str "abc123"));
                 isSignedIn := Some true |} in
  let loaded :=
    finalState
      (run (NewAgentPage.loadBoards (str "http://localhost:8000") auth
              (Fulfilled {| ok := true; json := Fulfilled [] |}))
           (NewAgentPage.initial (str "identity") (str "soul"))) in
  requests
    (trace (run (NewAgentPage.handleSubmit (str "http://localhost:8000") auth
                   (Rejected OtherValue))
                (NewAgentPage.setName (str "Deploy bot") loaded)))
  = [].
Proof.
  intros auth loaded.
  pose proof
    (loadBoards_then_submit (str "http://localhost:8000") auth
       (Some (str "abc123")) (Rejected OtherValue)
       (NewAgentPage.initial (str "identity") (str "soul")) []
       (str "Deploy bot") eq_refl eq_refl eq_refl) as H.
  cbv zeta in H.
  destruct H as [_ H].
  - vm_compute; discriminate.
  - apply H; reflexivity.
Defined.

(** ** A failed agent load *)

(** When the agent load of the edit form does not succeed (the token
    provider or the request is rejected, the answer is not OK, or its body
    cannot be read), no field of the form is seeded: the state is the one
    before with an error stored and the loading flag cleared. An answer that
    is not OK stores "Unable to load agent.". *)
Theorem loadAgent_failure_keeps_form
        (apiBase dId dSoul : jsstring) (auth : Auth)
        (agentIdParam : option EditAgentPage.param)
        (net : awaited (Response EditAgentPage.Agent.t))
        (st : EditAgentPage.State) :
  truthyFlag (isSignedIn auth) = true ->
  truthyOpt (EditAgentPage.agentId agentIdParam) = true ->
  (forall token data,
      ~ (getToken auth = Fulfilled token
         /\ net = Fulfilled {| ok := true; json := Fulfilled data |})) ->
  let st' :=
    finalState (run (EditAgentPage.loadAgent apiBase dId dSoul auth
                       agentIdParam net) st) in
  (exists message,
      st' = EditAgentPage.setIsLoading false
              (EditAgentPage.setError (Some message) st))
  /\ (forall token body,
         getToken auth = Fulfilled token ->
         net = Fulfilled {| ok := false; json := body |} ->
         EditAgentPage.error st' = Some (str "Unable to load agent.")).
Proof.
  intros Hs Hid Hfail st'; subst st'.
  rewrite edit_loadAgent_run, Hs, Hid; cbn.
  destruct (getToken auth) as [token|t]; cbn.
  - destruct net as [[[] body]|t]; [destruct body as [data|t]| |]; cbn.
    + exfalso; apply (Hfail token data); split; reflexivity.
    + split; [eauto|intros ? ? _ [=]].
    + split; [eauto|reflexivity].
    + split; [eauto|intros ? ? _ [=]].
  - split; [eauto|intros ? ? [=]].
Qed.

Lemma loadAgent_failure_keeps_form_witness :
  EditAgentPage.error
    (finalState
       (run (EditAgentPage.loadAgent (str "http://localhost:8000")
               (str "identity") (str "soul")
               {| getToken := Fulfilled (Some (str "abc123"));
                  isSignedIn := Some true |}
               (Some (EditAgentPage.One (str "a1")))
               (Fulfilled {| ok := false; json := Rejected OtherValue |}))
            (EditAgentPage.initial (str "identity") (str "soul"))))
  = Some (str "Unable to load agent.").
Proof.
  pose proof
    (loadAgent_failure_keeps_form (str "http://localhost:8000")
       (str "identity") (str "soul")
       {| getToken := Fulfilled (Some (str "abc123")); isSignedIn := Some true |}
       (Some (EditAgentPage.One (str "a1")))
       (Fulfilled {| ok := false; json := Rejected OtherValue |})
       (EditAgentPage.initial (str "identity") (str "soul"))
       eq_refl eq_refl) as H.
  cbv zeta in H.
  destruct H as [_ H].
  - intros token data [_ Hnet]; discriminate Hnet.
  - apply (H (Some (str "abc123")) (Rejected OtherValue)); reflexivity.
Defined.

(** ** The default board of the edit form *)

Lemma boardEffect_run (st : EditAgentPage.State) :
  run EditAgentPage.boardEffect st
  = (Normal tt,
     if truthy (EditAgentPage.boardId st) then st
     else if truthyOpt (EditAgentPage.agentBoardId (EditAgentPage.agent st))
          then EditAgentPage.setBoardId
                 (splice (EditAgentPage.agentBoardId (EditAgentPage.agent st)))
                 st
          else match EditAgentPage.boards st with
               | first :: _ => EditAgentPage.setBoardId (Board.id first) st
               | [] => st
               end,
     []).
Proof.
  unfold EditAgentPage.boardEffect, run; cbn.
  destruct (truthy (EditAgentPage.boardId st)); [reflexivity|].
  destruct (truthyOpt (EditAgentPage.agentBoardId (EditAgentPage.agent st)));
    [reflexivity|].
  destruct (EditAgentPage.boards st); reflexivity.
Qed.

(** The cases of the effect, on the value of [agent?.board_id]. *)
Lemma boardEffect_cases (st : EditAgentPage.State) :
  let st' := finalState (run EditAgentPage.boardEffect st) in
  trace (run EditAgentPage.boardEffect st) = []
  /\ (exists selection, st' = EditAgentPage.setBoardId selection st)
  /\ (EditAgentPage.boardId st <> [] -> st' = st)
  /\ (EditAgentPage.boardId st = [] ->
      forall b, EditAgentPage.agentBoardId (EditAgentPage.agent st) = Some b ->
                b <> [] -> EditAgentPage.boardId st' = b)
  /\ (EditAgentPage.boardId st = [] ->
      truthyOpt (EditAgentPage.agentBoardId (EditAgentPage.agent st)) = false ->
      (forall first rest, EditAgentPage.boards st = first :: rest ->
                          EditAgentPage.boardId st' = Board.id first)
      /\ (EditAgentPage.boards st = [] -> EditAgentPage.boardId st' = []))
  /\ finalState (run EditAgentPage.boardEffect st') = st'.
Proof.
  intros st'; subst st'; rewrite !boardEffect_run; cbn.
  split; [reflexivity|].
  destruct st as [ag nm bs bid ev tg idt st isl err]; cbn.
  destruct bid as [|c bid]; cbn.
  - destruct (truthyOpt (EditAgentPage.agentBoardId ag)) eqn:Hag.
    + apply truthyOpt_true_inv in Hag as [b [Hb Hne]].
      rewrite Hb; cbn; unfold_setters.
      apply truthy_true_iff in Hne as Htr; rewrite Htr.
      split; [eexists; reflexivity|].
      split; [intros H; contradiction|].
      split; [intros _ b' [= <-] _; reflexivity|].
      split; [intros _ [=]|reflexivity].
    + destruct bs as [|first rest]; cbn; unfold_setters.
      * rewrite Hag.
        split; [exists []; reflexivity|].
        split; [reflexivity|].
        split; [intros _ b Hb Hne|].
        { rewrite Hb in Hag; cbn in Hag.
          apply truthy_true_iff in Hne; congruence. }
        split; [|reflexivity].
        intros _ _; split; [intros ? ? [=]|reflexivity].
      * split; [eexists; reflexivity|].
        split; [intros H; contradiction|].
        split; [intros _ b Hb Hne|].
        { rewrite Hb in Hag; cbn in Hag.
          apply truthy_true_iff in Hne; congruence. }
        split; [intros _ _; split; [intros ? ? [= <- _]; reflexivity
                                    |intros [=]]|].
        destruct (truthy (Board.id first)); [reflexivity|].
        rewrite Hag; reflexivity.
  - unfold_setters.
    split; [eexists; reflexivity|].
    split; [reflexivity|].
    split; [intros [=]|].
    split; [intros [=]|reflexivity].
Qed.

(** [agent?.board_id], in terms of the loaded agent and its member. *)
Lemma agentBoardId_member (ag : option EditAgentPage.Agent.t) a :
  ag = Some a ->
  EditAgentPage.agentBoardId ag = EditAgentPage.Agent.board_id a.
Proof. now intros ->. Qed.

(** The effect that defaults the board selection touches nothing but the
    selection and does nothing outward; it never replaces a selection; with
    none, it takes the [board_id] of the loaded agent when there is an agent
    and its [board_id] is not empty, else the first loaded board, else
    leaves the selection empty. Running it again on its own result changes
    nothing, so the re-render it triggers settles. *)
Theorem boardEffect_default (st : EditAgentPage.State) :
  let st' := finalState (run EditAgentPage.boardEffect st) in
  trace (run EditAgentPage.boardEffect st) = []
  /\ (exists selection, st' = EditAgentPage.setBoardId selection st)
  /\ (EditAgentPage.boardId st <> [] -> st' = st)
  /\ (EditAgentPage.boardId st = [] ->
      forall a b,
        EditAgentPage.agent st = Some a ->
        EditAgentPage.Agent.board_id a = Some b -> b <> [] ->
        EditAgentPage.boardId st' = b)
  /\ (EditAgentPage.boardId st = [] ->
      EditAgentPage.agent st = None
      \/ (exists a, EditAgentPage.agent st = Some a
                    /\ (EditAgentPage.Agent.board_id a = None
                        \/ EditAgentPage.Agent.board_id a = Some [])) ->
      (forall first rest, EditAgentPage.boards st = first :: rest ->
                          EditAgentPage.boardId st' = Board.id first)
      /\ (EditAgentPage.boards st = [] -> EditAgentPage.boardId st' = []))
  /\ finalState (run EditAgentPage.boardEffect st') = st'.
Proof.
  intros st'; subst st'.
  pose proof (boardEffect_cases st) as H; cbv zeta in H.
  destruct H as [Htr [Hsel [Hkeep [Hagent [Hboards Hidem]]]]].
  split; [exact Htr|]; split; [exact Hsel|]; split; [exact Hkeep|].
  split; [|split; [|exact Hidem]].
  - intros Hnone a b Ha Hb Hne.
    apply (Hagent Hnone b); [|assumption].
    now rewrite (agentBoardId_member _ a Ha).
  - intros Hnone Hag; apply (Hboards Hnone).
    apply truthyOpt_false_iff.
    destruct Hag as [-> | [a [Ha Hb]]]; [now left|].
    now rewrite (agentBoardId_member _ a Ha).
Qed.

(** After a successful agent load, once the default-board effect has run,
    the selection is the agent's board whenever the record has one, whatever
    was selected before; when it has none, a selection made before is kept,
    and without one the first loaded board is taken. *)
Theorem loadAgent_then_boardEffect
        (apiBase dId dSoul : jsstring) (auth : Auth)
        (agentIdParam : option EditAgentPage.param)
        (st : EditAgentPage.State)
        (token : option jsstring) (data : EditAgentPage.Agent.t) :
  truthyFlag (isSignedIn auth) = true ->
  truthyOpt (EditAgentPage.agentId agentIdParam) = true ->
  getToken auth = Fulfilled token ->
  let loaded :=
    finalState
      (run (EditAgentPage.loadAgent apiBase dId dSoul auth agentIdParam
              (Fulfilled {| ok := true; json := Fulfilled data |})) st) in
  let st' := finalState (run EditAgentPage.boardEffect loaded) in
  (forall b, EditAgentPage.Agent.board_id data = Some b -> b <> [] ->
             EditAgentPage.boardId st' = b)
  /\ (truthyOpt (EditAgentPage.Agent.board_id data) = false ->
      (EditAgentPage.boardId st <> [] ->
       EditAgentPage.boardId st' = EditAgentPage.boardId st)
      /\ (EditAgentPage.boardId st = [] ->
          forall first rest, EditAgentPage.boards st = first :: rest ->
          EditAgentPage.boardId st' = Board.id first)).
Proof.
  intros Hs Hid Ht loaded st'; subst st' loaded.
  rewrite edit_loadAgent_run, Hs, Hid, Ht; cbn.
  rewrite boardEffect_run; cbn.
  split.
  - intros b Hb Hne; rewrite Hb; cbn.
    apply truthy_true_iff in Hne; rewrite !Hne; reflexivity.
  - intros Hnone; rewrite !Hnone; split.
    + intros Hsel; apply truthy_true_iff in Hsel; rewrite Hsel; reflexivity.
    + intros Hsel first rest Hbs; rewrite Hsel, Hbs; reflexivity.
Qed.

Lemma loadAgent_then_boardEffect_witness :
  let data :=
    EditAgentPage.Agent.mk (str "a1") (str "Deploy bot") (Some (str "b7"))
                           None None None in
  let auth := {| getToken := Fulfilled (Some (str "abc123"));
                 isSignedIn := Some true |} in
  let loaded :=
    finalState
      (run (EditAgentPage.loadAgent (str "http://localhost:8000")
              (str "identity") (str "soul") auth
              (Some (EditAgentPage.One (str "a1")))
              (Fulfilled {| ok := true; json := Fulfilled data |}))
           (EditAgentPage.setBoardId (str "b1")
              (EditAgentPage.initial (str "identity") (str "soul")))) in
  EditAgentPage.boardId (finalState (run EditAgentPage.boardEffect loaded))
  = str "b7".
Proof.
  intros data auth loaded.
  pose proof
    (loadAgent_then_boardEffect (str "http://localhost:8000")
       (str "identity") (str "soul") auth
       (Some (EditAgentPage.One (str "a1")))
       (EditAgentPage.setBoardId (str "b1")
          (EditAgentPage.initial (str "identity") (str "soul")))
       (Some (str "abc123")) data eq_refl eq_refl eq_refl) as H.
  cbv zeta in H; destruct H as [H _].
  apply H; [reflexivity|vm_compute; discriminate].
Defined.

Lemma boardEffect_default_witness :
  let boards :=
    [Board.mk (str "b1") (str "Ops") (str "ops");
     Board.mk (str "b2") (str "Dev") (str "dev")] in
  let withBoard :=
    EditAgentPage.Agent.mk (str "a1") (str "Deploy bot") (Some (str "b7"))
                           None None None in
  let withoutBoard :=
    EditAgentPage.Agent.mk (str "a1") (str "Deploy bot") (Some [])
                           None None None in
  let start := EditAgentPage.initial (str "identity") (str "soul") in
  EditAgentPage.boardId
    (finalState
       (run EditAgentPage.boardEffect
            (EditAgentPage.setAgent (Some withBoard)
               (EditAgentPage.setBoards boards start))))
  = str "b7"
  /\ EditAgentPage.boardId
       (finalState
          (run EditAgentPage.boardEffect
               (EditAgentPage.setAgent (Some withoutBoard)
                  (EditAgentPage.setBoards boards start))))
     = str "b1".
Proof.
  intros boards withBoard withoutBoard start; split.
  - pose proof
      (boardEffect_default
         (EditAgentPage.setAgent (Some withBoard)
            (EditAgentPage.setBoards boards start))) as H.
    cbv zeta in H; destruct H as [_ [_ [_ [H _]]]].
    apply (H eq_refl withBoard (str "b7"));
      [reflexivity|reflexivity|vm_compute; discriminate].
  - pose proof
      (boardEffect_default
         (EditAgentPage.setAgent (Some withoutBoard)
            (EditAgentPage.setBoards boards start))) as H.
    cbv zeta in H; destruct H as [_ [_ [_ [_ [H _]]]]].
    destruct (H eq_refl) as [Hfirst _].
    + right; exists withoutBoard; split; [reflexivity|right; reflexivity].
    + apply (Hfirst (Board.mk (str "b1") (str "Ops") (str "ops"))
                    [Board.mk (str "b2") (str "Dev") (str "dev")]).
      reflexivity.
Defined.

(** ** The agent id of the route *)

(** The edit form has an agent id unless the route parameter is missing, the
    empty string, an empty array or an array whose first element is empty;
    of an array only the first element counts. Without an agent id, loading
    the agent and submitting do nothing, signed in or not. *)
Theorem edit_handlers_need_agent_id
        (apiBase dId dSoul : jsstring) (auth : Auth)
        (agentIdParam : option EditAgentPage.param) :
  (truthyOpt (EditAgentPage.agentId agentIdParam) = false
   <-> agentIdParam = None
       \/ agentIdParam = Some (EditAgentPage.One [])
       \/ agentIdParam = Some (EditAgentPage.Many [])
       \/ exists rest, agentIdParam = Some (EditAgentPage.Many ([] :: rest)))
  /\ (forall id rest,
         agentIdParam = Some (EditAgentPage.Many (id :: rest)) ->
         EditAgentPage.agentId agentIdParam = Some id)
  /\ (truthyOpt (EditAgentPage.agentId agentIdParam) = false ->
      (forall net st,
          noop (run (EditAgentPage.loadAgent apiBase dId dSoul auth
                       agentIdParam net) st) st)
      /\ (forall T (net : awaited (Response T)) st,
             noop (run (EditAgentPage.handleSubmit apiBase auth agentIdParam
                          net) st) st)).
Proof.
  split; [|split].
  - destruct agentIdParam as [[s | [|s rest]]|]; cbn.
    + destruct s; cbn; split; try discriminate; auto.
      intros [[=] | [[=] | [[=] | [rest [=]]]]].
    + split; auto.
    + destruct s; cbn; split; try discriminate; eauto.
      intros [[=] | [[=] | [[=] | [rest' [=]]]]].
    + split; auto.
  - intros id rest ->; reflexivity.
  - intros Hid; unfold noop; split; intros.
    + rewrite edit_loadAgent_run, Hid, orb_true_r; split; reflexivity.
    + rewrite edit_handleSubmit_run, Hid, orb_true_r; split; reflexivity.
Qed.

Lemma edit_handlers_need_agent_id_witness :
  noop (run (EditAgentPage.handleSubmit (str "http://localhost:8000")
               {| getToken := Fulfilled (Some (str "abc123"));
                  isSignedIn := Some true |}
               (Some (EditAgentPage.Many []))
               (@Rejected (Response unit) OtherValue))
            (EditAgentPage.setName (str "Deploy bot")
               (EditAgentPage.initial (str "identity") (str "soul"))))
       (EditAgentPage.setName (str "Deploy bot")
          (EditAgentPage.initial (str "identity") (str "soul"))).
Proof.
  apply (edit_handlers_need_agent_id (str "http://localhost:8000")
           (str "identity") (str "soul")
           {| getToken := Fulfilled (Some (str "abc123"));
              isSignedIn := Some true |}
           (Some (EditAgentPage.Many []))).
  reflexivity.
Defined.

(** ** What reaches the server *)

Lemma orElse_nonempty (a b : jsstring) : b <> [] -> orElse a b <> [].
Proof.
  unfold orElse; destruct (truthy a) eqn:E; [|auto].
  intros _; now apply truthy_true_iff.
Qed.

(** Every request a submission of either form sends was sent by a signed-in
    user and passed validation: its body has a name that is not empty and
    has nothing left to trim, a board id that is not empty, and an interval
    that is not empty. *)
Theorem submit_requests_are_valid
        (apiBase : jsstring) (auth : Auth)
        (agentIdParam : option EditAgentPage.param) :
  (forall net st r,
      In r (requests
              (trace (run (NewAgentPage.handleSubmit apiBase auth net) st))) ->
      truthyFlag (isSignedIn auth) = true
      /\ exists payload,
           body r = Some payload
           /\ trimmedToken (Payload.name payload)
           /\ Payload.board_id payload <> []
           /\ every (Payload.heartbeat_config payload) <> [])
  /\ (forall T (net : awaited (Response T)) st r,
         In r (requests
                 (trace (run (EditAgentPage.handleSubmit apiBase auth
                                agentIdParam net) st))) ->
         truthyFlag (isSignedIn auth) = true
         /\ exists payload,
              body r = Some payload
              /\ trimmedToken (Payload.name payload)
              /\ Payload.board_id payload <> []
              /\ every (Payload.heartbeat_config payload) <> []).
Proof.
  assert (Hevery : forall e, orElse (trim e) (str "10m") <> [])
    by (intros e; apply orElse_nonempty; discriminate).
  split.
  - intros net st r; rewrite new_handleSubmit_run.
    destruct (truthyFlag (isSignedIn auth)); cbn; [|tauto].
    destruct (blank (NewAgentPage.name st)) eqn:Hn; cbn; [tauto|].
    destruct (truthy (NewAgentPage.boardId st)) eqn:Hb; cbn; [|tauto].
    destruct (getToken auth) as [token|t]; cbn; [|tauto].
    intros Hin.
    assert (Hr : r = NewAgentPage.createRequest apiBase token st)
      by (destruct net as [[[] [created|t]]|t]; cbn in Hin;
          destruct Hin as [<-|[]]; reflexivity).
    subst r; split; [reflexivity|].
    eexists; split; [reflexivity|]; cbn.
    split; [split; [|apply trim_idempotent]|split].
    + intros H; apply trim_nil_iff in H; congruence.
    + now apply truthy_true_iff.
    + apply Hevery.
  - intros T net st r; rewrite edit_handleSubmit_run.
    destruct (truthyFlag (isSignedIn auth)); cbn; [|tauto].
    destruct (truthyOpt (EditAgentPage.agentId agentIdParam)); cbn; [|tauto].
    destruct (blank (EditAgentPage.name st)) eqn:Hn; cbn; [tauto|].
    destruct (truthy (EditAgentPage.boardId st)) eqn:Hb; cbn; [|tauto].
    destruct (getToken auth) as [token|t]; cbn; [|tauto].
    intros Hin.
    assert (Hr : r = EditAgentPage.updateRequest apiBase agentIdParam token st)
      by (destruct net as [[[] js]|t]; cbn in Hin;
          destruct Hin as [<-|[]]; reflexivity).
    subst r; split; [reflexivity|].
    eexists; split; [reflexivity|]; cbn.
    split; [split; [|apply trim_idempotent]|split].
    + intros H; apply trim_nil_iff in H; congruence.
    + now apply truthy_true_iff.
    + apply Hevery.
Qed.

Lemma submit_requests_are_valid_witness :
  let st :=
    NewAgentPage.setBoardId (str "b1")
      (NewAgentPage.setHeartbeatEvery (str "  ")
         (NewAgentPage.setName (str " Deploy bot ")
            (NewAgentPage.initial (str "identity") (str "soul")))) in
  exists payload,
    body (NewAgentPage.createRequest (str "http://localhost:8000")
                                     (Some (str "abc123")) st)
    = Some payload
    /\ trimmedToken (Payload.name payload)
    /\ Payload.board_id payload <> []
    /\ every (Payload.heartbeat_config payload) <> [].
Proof.
  intros st.
  apply (proj1 (submit_requests_are_valid (str "http://localhost:8000")
                  {| getToken := Fulfilled (Some (str "abc123"));
                     isSignedIn := Some true |} None)
               (Rejected OtherValue) st).
  vm_compute; left; reflexivity.
Defined.

(** ** The two loads of the edit form, in either order *)

(** On mount the edit form starts the board load and the agent load
    together. When both succeed, the state reached from the initial state
    (the default-board effect having run after each) does not depend on
    which of the two completed first; the selection is then the agent's
    board when the record has one, else the first loaded board, else
    empty. *)
Theorem edit_loads_any_order
        (apiBase dId dSoul : jsstring) (auth : Auth)
        (agentIdParam : option EditAgentPage.param)
        (token : option jsstring)
        (data : EditAgentPage.Agent.t) (loadedBoards : list Board.t) :
  truthyFlag (isSignedIn auth) = true ->
  truthyOpt (EditAgentPage.agentId agentIdParam) = true ->
  getToken auth = Fulfilled token ->
  let settle st := finalState (run EditAgentPage.boardEffect st) in
  let loadB st :=
    finalState
      (run (EditAgentPage.loadBoards apiBase auth
              (Fulfilled {| ok := true; json := Fulfilled loadedBoards |})) st) in
  let loadA st :=
    finalState
      (run (EditAgentPage.loadAgent apiBase dId dSoul auth agentIdParam
              (Fulfilled {| ok := true; json := Fulfilled data |})) st) in
  let start := EditAgentPage.initial dId dSoul in
  let boardsFirst := settle (loadA (settle (loadB start))) in
  let agentFirst := settle (loadB (settle (loadA start))) in
  boardsFirst = agentFirst
  /\ EditAgentPage.boards agentFirst = loadedBoards
  /\ EditAgentPage.agent agentFirst = Some data
  /\ (forall b, EditAgentPage.Agent.board_id data = Some b -> b <> [] ->
                EditAgentPage.boardId agentFirst = b)
  /\ (truthyOpt (EditAgentPage.Agent.board_id data) = false ->
      (forall first rest, loadedBoards = first :: rest ->
                          EditAgentPage.boardId agentFirst = Board.id first)
      /\ (loadedBoards = [] -> EditAgentPage.boardId agentFirst = [])).
Proof.
  intros Hs Hid Ht settle loadB loadA start boardsFirst agentFirst.
  subst boardsFirst agentFirst start loadA loadB settle; cbv beta.
  rewrite !edit_loadBoards_run, !edit_loadAgent_run, !boardEffect_run.
  rewrite Hs, Hid, Ht; cbn.
  destruct (truthyOpt (EditAgentPage.Agent.board_id data)) eqn:Hboard.
  - apply truthyOpt_true_inv in Hboard as [b [Hb Hne]].
    rewrite Hb; cbn.
    apply truthy_true_iff in Hne as Htr.
    destruct loadedBoards as [|first rest]; cbn; rewrite ?Htr; cbn;
      try destruct (truthy (Board.id first)); cbn; rewrite ?Htr; cbn;
      (split; [reflexivity|]); (split; [reflexivity|]);
      (split; [reflexivity|]);
      (split; [intros b' [= <-] _; reflexivity|intros [=]]).
  - destruct loadedBoards as [|first rest]; cbn; rewrite ?Hboard; cbn.
    + split; [reflexivity|]; split; [reflexivity|]; split; [reflexivity|].
      split.
      * intros b Hb Hne; rewrite Hb in Hboard; cbn in Hboard.
        apply truthy_true_iff in Hne; congruence.
      * intros _; split; [intros ? ? [=]|reflexivity].
    + destruct (truthy (Board.id first)) eqn:Hfirst; cbn;
        rewrite ?Hboard; cbn;
        (split; [reflexivity|]); (split; [reflexivity|]);
        (split; [reflexivity|]);
        (split;
         [intros b Hb Hne; rewrite Hb in Hboard; cbn in Hboard;
          apply truthy_true_iff in Hne; congruence
         |intros _; split; [intros ? ? [= <- _]; reflexivity|intros [=]]]).
Qed.

Lemma edit_loads_any_order_witness :
  let auth := {| getToken := Fulfilled (Some (str "abc123"));
                 isSignedIn := Some true |} in
  let data :=
    EditAgentPage.Agent.mk (str "a1") (str "Deploy bot") None None None None in
  let loadedBoards := [Board.mk (str "b1") (str "Ops") (str "ops")] in
  EditAgentPage.boardId
    (finalState
       (run EditAgentPage.boardEffect
          (finalState
             (run (EditAgentPage.loadBoards (str "http://localhost:8000") auth
                     (Fulfilled {| ok := true; json := Fulfilled loadedBoards |}))
                (finalState
                   (run EditAgentPage.boardEffect
                      (finalState
                         (run (EditAgentPage.loadAgent
                                 (str "http://localhost:8000")
                                 (str "identity") (str "soul") auth
                                 (Some (EditAgentPage.One (str "a1")))
                                 (Fulfilled {| ok := true;
                                               json := Fulfilled data |}))
                              (EditAgentPage.initial (str "identity")
                                                     (str "soul"))))))))))
  = str "b1".
Proof.
  intros auth data loadedBoards.
  pose proof
    (edit_loads_any_order (str "http://localhost:8000")
       (str "identity") (str "soul") auth
       (Some (EditAgentPage.One (str "a1"))) (Some (str "abc123"))
       data loadedBoards eq_refl eq_refl eq_refl) as H.
  cbv zeta beta in H.
  destruct H as [_ [_ [_ [_ H]]]].
  destruct (H eq_refl) as [Hfirst _].
  apply (Hfirst (Board.mk (str "b1") (str "Ops") (str "ops")) []).
  reflexivity.
Defined.

(** ** The default selection is an offered board *)

(** When the board load of the creation form selects a default, the
    selection is the value of the first option of the board selector, which
    shows the first loaded board's name. *)
Theorem default_selection_is_offered
        (apiBase : jsstring) (auth : Auth) (token : option jsstring)
        (st : NewAgentPage.State) (first : Board.t) (rest : list Board.t) :
  truthyFlag (isSignedIn auth) = true ->
  getToken auth = Fulfilled token ->
  NewAgentPage.boardId st = [] ->
  let st' :=
    finalState
      (run (NewAgentPage.loadBoards apiBase auth
              (Fulfilled {| ok := true; json := Fulfilled (first :: rest) |}))
           st) in
  hd_error (NewAgentPage.getBoardOptions (NewAgentPage.boards st'))
  = Some {| value := NewAgentPage.boardId st'; label := Board.name first |}
  /\ List.length (NewAgentPage.getBoardOptions (NewAgentPage.boards st'))
     = S (List.length rest).
Proof.
  intros Hs Ht Hb st'; subst st'.
  rewrite new_loadBoards_run, Hs, Ht; cbn.
  rewrite Hb; cbn.
  now rewrite length_map.
Qed.

Lemma default_selection_is_offered_witness :
  let st' :=
    finalState
      (run (NewAgentPage.loadBoards (str "http://localhost:8000")
              {| getToken := Fulfilled None; isSignedIn := Some true |}
              (Fulfilled
                 {| ok := true;
                    json := Fulfilled
                              [Board.mk (str "b1") (str "Ops") (str "ops")] |}))
           (NewAgentPage.initial (str "identity") (str "soul"))) in
  hd_error (NewAgentPage.getBoardOptions (NewAgentPage.boards st'))
  = Some {| value := NewAgentPage.boardId st'; label := str "Ops" |}.
Proof.
  intros st'.
  apply (default_selection_is_offered (str "http://localhost:8000")
           {| getToken := Fulfilled None; isSignedIn := Some true |} None
           (NewAgentPage.initial (str "identity") (str "soul"))
           (Board.mk (str "b1") (str "Ops") (str "ops")) []
           eq_refl eq_refl eq_refl).
Defined.
